(** * Placement_AI_Agent: the agent functions of [agents.py]

    A shallow embedding of the seven functions of [agents.py]
    ([get_gemini_response], [parse_resume_with_ai], [search_jobs_jsearch],
    [simulate_job_discovery], [discover_jobs], [generate_cover_letter],
    [generate_interview_questions]) and the properties the specification
    states about them.

    Conventions of the embedding.
    - A Python [str] is a Rocq [string], one [ascii] per character.  The
      case and white-space functions are given for ASCII text, which covers
      every literal of the source except the long dash of the fallback
      notes; that dash is spelled by its three UTF-8 bytes ([em_dash]).
    - JSON values and the values of Python dictionaries are [pyval]s; an
      operation applied to a value of the wrong type fails with the
      exception Python raises.
    - A Python exception is a value of [exn], its class and its text.  Only
      instances of [Exception], which [except Exception] catches, are
      modelled.
    - The outside world (the text-generation service, the job-search
      service, the clock and the module-level random generator) is an
      explicit state [world], threaded through a state-and-exception monad
      [M].  What a service does at its [k]-th request is a parameter of the
      development, as are [random.shuffle], [random.seed] and [json.loads].
    - [genai.configure] and the constructor of [GenerativeModel] only record
      their arguments and are taken not to raise; [print] is a diagnostic
      and is left out. *)

From Stdlib Require Import String Ascii List ZArith QArith Lia Bool Arith.
From Stdlib Require Import Permutation DecimalString.
Import ListNotations.

Local Close Scope Q_scope.
Local Open Scope list_scope.
Local Open Scope string_scope.
Local Open Scope nat_scope.

(** ** Python string operations *)

Module PyStr.

(** [s[:n]] *)
Fixpoint take (n : nat) (s : string) : string :=
  match n, s with
  | O, _ => EmptyString
  | S _, EmptyString => EmptyString
  | S k, String c rest => String c (take k rest)
  end.

(** [sub in s] *)
Fixpoint contains (sub s : string) : bool :=
  match s with
  | EmptyString => prefix sub EmptyString
  | String _ rest => prefix sub s || contains sub rest
  end.

(** [s.replace(old, new)] for a non-empty [old]: the occurrences are taken
    from left to right and do not overlap.  [skip] counts the characters of
    a matched occurrence that remain to be dropped. *)
Fixpoint replace_from (old new : string) (skip : nat) (s : string) : string :=
  match s with
  | EmptyString => EmptyString
  | String c rest =>
      match skip with
      | S k => replace_from old new k rest
      | O =>
          if prefix old s
          then new ++ replace_from old new (String.length old - 1) rest
          else String c (replace_from old new 0 rest)
      end
  end.

(** [s.replace("", new)]: [new] is put before every character and at the end. *)
Fixpoint replace_empty (new s : string) : string :=
  match s with
  | EmptyString => new
  | String c rest => new ++ String c (replace_empty new rest)
  end.

Definition replace (old new s : string) : string :=
  match old with
  | EmptyString => replace_empty new s
  | String _ _ => replace_from old new 0 s
  end.

(** The fields of [s.split(sep)] for a non-empty [sep]; [cur] is the field
    being read. *)
Fixpoint split_from (sep : string) (skip : nat) (cur s : string) : list string :=
  match s with
  | EmptyString => [cur]
  | String c rest =>
      match skip with
      | S k => split_from sep k cur rest
      | O =>
          if prefix sep s
          then cur :: split_from sep (String.length sep - 1) EmptyString rest
          else split_from sep 0 (cur ++ String c EmptyString) rest
      end
  end.

Definition is_upper (c : ascii) : bool :=
  let n := nat_of_ascii c in (65 <=? n) && (n <=? 90).

Definition lower_char (c : ascii) : ascii :=
  if is_upper c then ascii_of_nat (nat_of_ascii c + 32) else c.

(** [s.lower()] on ASCII text *)
Fixpoint lower (s : string) : string :=
  match s with
  | EmptyString => EmptyString
  | String c rest => String (lower_char c) (lower rest)
  end.

(** [c.isspace()] for an ASCII character: tab, line feed, vertical tab, form
    feed, carriage return, the four separators 28 to 31, and the space. *)
Definition isspace (c : ascii) : bool :=
  let n := nat_of_ascii c in
  ((9 <=? n) && (n <=? 13)) || ((28 <=? n) && (n <=? 32)).

Fixpoint lstrip (s : string) : string :=
  match s with
  | EmptyString => EmptyString
  | String c rest => if isspace c then lstrip rest else s
  end.

Fixpoint rstrip (s : string) : string :=
  match s with
  | EmptyString => EmptyString
  | String c rest =>
      match rstrip rest with
      | EmptyString => if isspace c then EmptyString else String c EmptyString
      | r => String c r
      end
  end.

(** [s.strip()] *)
Definition strip (s : string) : string := rstrip (lstrip s).

(** Truth value of a string: [bool(s)] *)
Definition nonempty (s : string) : bool :=
  match s with
  | EmptyString => false
  | String _ _ => true
  end.

End PyStr.

(** ** Python values, exceptions *)

(** The values a decoded JSON document is made of; they are also the values
    stored in the dictionaries the agents build. *)
#[local] Set Warnings "-register-all".
Inductive pyval : Type :=
| VNone
| VBool (b : bool)
| VInt (z : Z)
| VFloat (q : Q)
| VStr (s : string)
| VList (items : list pyval)
| VDict (fields : list (string * pyval)).

(** A dictionary with string keys, in insertion order. *)
Definition dict : Type := list (string * pyval).

(** An exception: its class and [str(e)]. *)
Record exn : Type := mkExn { exn_class : string; exn_str : string }.

Inductive exc (A : Type) : Type :=
| Val (a : A)
| Raise (e : exn).
Arguments Val {A} a.
Arguments Raise {A} e.

Definition exc_bind {A B} (c : exc A) (k : A -> exc B) : exc B :=
  match c with
  | Val a => k a
  | Raise e => Raise e
  end.

Notation "x <-- c ;; k" := (exc_bind c (fun x => k))
  (at level 61, c at next level, right associativity).

Module Py.

(** [bool(v)] *)
Definition truthy (v : pyval) : bool :=
  match v with
  | VNone => false
  | VBool b => b
  | VInt z => negb (Z.eqb z 0)
  | VFloat q => negb (Z.eqb (Qnum q) 0)
  | VStr s => PyStr.nonempty s
  | VList items => match items with [] => false | _ :: _ => true end
  | VDict fields => match fields with [] => false | _ :: _ => true end
  end.

Definition type_name (v : pyval) : string :=
  match v with
  | VNone => "NoneType"
  | VBool _ => "bool"
  | VInt _ => "int"
  | VFloat _ => "float"
  | VStr _ => "str"
  | VList _ => "list"
  | VDict _ => "dict"
  end.

Definition attribute_error (v : pyval) (attr : string) : exn :=
  mkExn "AttributeError"
        ("'" ++ type_name v ++ "' object has no attribute '" ++ attr ++ "'").

Definition type_error (msg : string) : exn := mkExn "TypeError" msg.

(** [d.get(key, default)] on a dictionary *)
Fixpoint dict_get (d : dict) (key : string) (default : pyval) : pyval :=
  match d with
  | [] => default
  | (k, v) :: rest => if String.eqb k key then v else dict_get rest key default
  end.

Fixpoint has_key (d : dict) (key : string) : bool :=
  match d with
  | [] => false
  | (k, _) :: rest => String.eqb k key || has_key rest key
  end.

(** [v.get(key, default)]: only a dictionary has the method. *)
Definition get (v : pyval) (key : string) (default : pyval) : exc pyval :=
  match v with
  | VDict d => Val (dict_get d key default)
  | _ => Raise (attribute_error v "get")
  end.

(** [v[:n]] *)
Definition slice (n : nat) (v : pyval) : exc pyval :=
  match v with
  | VStr s => Val (VStr (PyStr.take n s))
  | VList items => Val (VList (firstn n items))
  | VDict _ => Raise (type_error "unhashable type: 'slice'")
  | _ => Raise (type_error ("'" ++ type_name v ++ "' object is not subscriptable"))
  end.

Fixpoint chars (s : string) : list pyval :=
  match s with
  | EmptyString => []
  | String c rest => VStr (String c EmptyString) :: chars rest
  end.

(** The elements [for item in v] runs through. *)
Definition iter (v : pyval) : exc (list pyval) :=
  match v with
  | VStr s => Val (chars s)
  | VList items => Val items
  | VDict fields => Val (map (fun kv => VStr (fst kv)) fields)
  | _ => Raise (type_error ("'" ++ type_name v ++ "' object is not iterable"))
  end.

(** The receiver of a string method ([replace], [lower], [split]): any
    other value has no such attribute. *)
Definition str_receiver (v : pyval) (method : string) : exc string :=
  match v with
  | VStr s => Val s
  | _ => Raise (attribute_error v method)
  end.

(** [s.split(sep)] *)
Definition split (sep s : string) : exc (list string) :=
  match sep with
  | EmptyString => Raise (mkExn "ValueError" "empty separator")
  | String _ _ => Val (PyStr.split_from sep 0 EmptyString s)
  end.

(** [xs[0]] *)
Definition first (xs : list string) : exc string :=
  match xs with
  | [] => Raise (mkExn "IndexError" "list index out of range")
  | x :: _ => Val x
  end.

(** [str(n)] for an integer *)
Definition str_of_int (z : Z) : string := NilZero.string_of_int (Z.to_int z).

End Py.

(** ** Text constants *)

Definition nl : string := String "010"%char EmptyString.
Definition dq : string := String "034"%char EmptyString.
Definition em_dash : string :=
  String "226"%char (String "128"%char (String "148"%char EmptyString)).
Definition quoted (s : string) : string := dq ++ s ++ dq.

(** A text given line by line: the lines joined by line feeds. *)
Definition text (lines : list string) : string := String.concat nl lines.

(** ** A decoder for a fragment of JSON

    [Json.loads] follows CPython's [json.loads] (scanner and decoder of
    version 3.11) on the documents made of objects, arrays, strings with
    the one-letter escapes, integers and the literals [null], [true] and
    [false].  Documents that use [\u] escapes, numbers with a fraction or
    an exponent, or [NaN] and [Infinity] are outside the fragment: the
    decoder marks them [Beyond].  The agents are stated for any decoder;
    this one serves the concrete runs. *)

Module Json.

Inductive res (A : Type) : Type :=
| Parsed (a : A) (rest : string) (pos : nat)   (* a value, the text after it *)
| Stop (pos : nat)                             (* no value starts at [pos] *)
| Bad (msg : string) (pos : nat)               (* JSONDecodeError(msg, doc, pos) *)
| Beyond.                                      (* outside the fragment *)
Arguments Parsed {A} a rest pos.
Arguments Stop {A} pos.
Arguments Bad {A} msg pos.
Arguments Beyond {A}.

Definition is_ws (c : ascii) : bool :=
  let n := nat_of_ascii c in
  (n =? 32) || (n =? 9) || (n =? 10) || (n =? 13).

Definition is_digit (c : ascii) : bool :=
  let n := nat_of_ascii c in (48 <=? n) && (n <=? 57).

Fixpoint skip_ws (s : string) (pos : nat) : string * nat :=
  match s with
  | String c rest => if is_ws c then skip_ws rest (S pos) else (s, pos)
  | EmptyString => (s, pos)
  end.

Fixpoint drop (n : nat) (s : string) : string :=
  match n, s with
  | O, _ => s
  | S _, EmptyString => EmptyString
  | S k, String _ rest => drop k rest
  end.

(** The character a one-letter escape stands for. *)
Definition unescape (c : ascii) : option ascii :=
  match nat_of_ascii c with
  | 34 => Some "034"%char     (* quote *)
  | 92 => Some "092"%char     (* backslash *)
  | 47 => Some "/"%char
  | 98 => Some "008"%char     (* b *)
  | 102 => Some "012"%char    (* f *)
  | 110 => Some "010"%char    (* n *)
  | 114 => Some "013"%char    (* r *)
  | 116 => Some "009"%char    (* t *)
  | _ => None
  end.

(** The text of a string whose opening quote is at [begin]. *)
Fixpoint scanstring (begin : nat) (s : string) (pos : nat) (content : string)
  : res string :=
  match s with
  | EmptyString => Bad "Unterminated string starting at" begin
  | String c rest =>
      if Ascii.eqb c "034" then Parsed content rest (S pos)
      else if Ascii.eqb c "092" then
        match rest with
        | EmptyString => Bad "Unterminated string starting at" begin
        | String e rest' =>
            match unescape e with
            | Some ch => scanstring begin rest' (S (S pos)) (content ++ String ch EmptyString)
            | None => if Ascii.eqb e "u" then Beyond else Bad "Invalid \escape" pos
            end
        end
      else if nat_of_ascii c <? 32 then Bad "Invalid control character at" pos
      else scanstring begin rest (S pos) (content ++ String c EmptyString)
  end.

(** The digits at the head of [s]: their value after [acc], and the rest. *)
Fixpoint digits (s : string) (pos : nat) (acc : Z) : Z * string * nat :=
  match s with
  | String c rest =>
      if is_digit c
      then digits rest (S pos) (10 * acc + Z.of_nat (nat_of_ascii c - 48))%Z
      else (acc, s, pos)
  | EmptyString => (acc, s, pos)
  end.

Definition head_is (p : ascii -> bool) (s : string) : bool :=
  match s with
  | String c _ => p c
  | EmptyString => false
  end.

(** Does a fraction or an exponent follow the integer part? *)
Definition float_follows (s : string) : bool :=
  match s with
  | String "." rest => head_is is_digit rest
  | String c rest =>
      if Ascii.eqb c "e" || Ascii.eqb c "E" then
        match rest with
        | String d rest' =>
            if Ascii.eqb d "+" || Ascii.eqb d "-" then head_is is_digit rest'
            else is_digit d
        | EmptyString => false
        end
      else false
  | EmptyString => false
  end.

(** An integer at the head of [s]: an optional minus sign, then a zero or a
    run of digits that does not begin with a zero; [s] starts at [pos]. *)
Definition number (s : string) (pos : nat) : res pyval :=
  let '(negative, body, start) :=
    match s with
    | String "-" rest => (true, rest, S pos)
    | _ => (false, s, pos)
    end in
  match body with
  | String c rest =>
      if is_digit c then
        let '(value, after, stop) :=
          if Ascii.eqb c "0" then (0%Z, rest, S start) else digits body start 0%Z in
        if float_follows after then Beyond
        else Parsed (VInt (if negative then - value else value)%Z) after stop
      else if negative && prefix "Infinity" body then Beyond
      else Stop pos
  | EmptyString => Stop pos
  end.

(** [dict(pairs)]: a repeated key keeps its place and takes the last value. *)
Fixpoint dict_set (d : dict) (key : string) (v : pyval) : dict :=
  match d with
  | [] => [(key, v)]
  | (k, old) :: rest =>
      if String.eqb k key then (k, v) :: rest else (k, old) :: dict_set rest key v
  end.

(** [scan_once], [JSONObject] and [JSONArray].  [fuel] bounds the nesting
    and the number of members; [loads] gives more than a document can use. *)
Fixpoint scan_once (fuel : nat) (s : string) (pos : nat) {struct fuel} : res pyval :=
  match fuel with
  | O => Beyond
  | S fuel' =>
      match s with
      | EmptyString => Stop pos
      | String c rest =>
          if Ascii.eqb c "034" then
            match scanstring pos rest (S pos) EmptyString with
            | Parsed text rest' pos' => Parsed (VStr text) rest' pos'
            | Stop p => Stop p
            | Bad msg p => Bad msg p
            | Beyond => Beyond
            end
          else if Ascii.eqb c "{" then
            let (s1, p1) := skip_ws rest (S pos) in
            match s1 with
            | String "}" rest' => Parsed (VDict []) rest' (S p1)
            | String c1 rest' =>
                if Ascii.eqb c1 "034" then members fuel' [] rest' (S p1)
                else Bad "Expecting property name enclosed in double quotes" p1
            | EmptyString =>
                Bad "Expecting property name enclosed in double quotes" p1
            end
          else if Ascii.eqb c "[" then
            let (s1, p1) := skip_ws rest (S pos) in
            match s1 with
            | String "]" rest' => Parsed (VList []) rest' (S p1)
            | _ => elements fuel' [] s1 p1
            end
          else if prefix "null" s then Parsed VNone (drop 4 s) (pos + 4)
          else if prefix "true" s then Parsed (VBool true) (drop 4 s) (pos + 4)
          else if prefix "false" s then Parsed (VBool false) (drop 5 s) (pos + 5)
          else if prefix "NaN" s || prefix "Infinity" s then Beyond
          else number s pos
      end
  end

(** The members of an object; [s] starts just after the opening quote of
    the next key, at [pos]. *)
with members (fuel : nat) (pairs : dict) (s : string) (pos : nat) {struct fuel}
  : res pyval :=
  match fuel with
  | O => Beyond
  | S fuel' =>
      match scanstring (pos - 1) s pos EmptyString with
      | Parsed key s1 p1 =>
          let (s2, p2) := skip_ws s1 p1 in
          match s2 with
          | String ":" s3 =>
              let (s4, p4) := skip_ws s3 (S p2) in
              match scan_once fuel' s4 p4 with
              | Parsed value s5 p5 =>
                  let pairs' := dict_set pairs key value in
                  let (s6, p6) := skip_ws s5 p5 in
                  match s6 with
                  | String "}" s7 => Parsed (VDict pairs') s7 (S p6)
                  | String "," s7 =>
                      let (s8, p8) := skip_ws s7 (S p6) in
                      match s8 with
                      | String c8 s9 =>
                          if Ascii.eqb c8 "034" then members fuel' pairs' s9 (S p8)
                          else Bad "Expecting property name enclosed in double quotes" p8
                      | EmptyString =>
                          Bad "Expecting property name enclosed in double quotes" p8
                      end
                  | _ => Bad "Expecting ',' delimiter" p6
                  end
              | Stop p => Bad "Expecting value" p
              | Bad msg p => Bad msg p
              | Beyond => Beyond
              end
          | _ => Bad "Expecting ':' delimiter" p2
          end
      | Stop p => Stop p
      | Bad msg p => Bad msg p
      | Beyond => Beyond
      end
  end

(** The elements of an array; [s] starts at the next element, at [pos]. *)
with elements (fuel : nat) (values : list pyval) (s : string) (pos : nat)
    {struct fuel} : res pyval :=
  match fuel with
  | O => Beyond
  | S fuel' =>
      match scan_once fuel' s pos with
      | Parsed value s1 p1 =>
          let values' := (values ++ [value])%list in
          let (s2, p2) := skip_ws s1 p1 in
          match s2 with
          | String "]" s3 => Parsed (VList values') s3 (S p2)
          | String "," s3 =>
              let (s4, p4) := skip_ws s3 (S p2) in
              elements fuel' values' s4 p4
          | _ => Bad "Expecting ',' delimiter" p2
          end
      | Stop p => Bad "Expecting value" p
      | Bad msg p => Bad msg p
      | Beyond => Beyond
      end
  end.

(** Line and column (both from 1) of position [pos] of [doc]. *)
Fixpoint line_column (doc : string) (pos line column : nat) : nat * nat :=
  match pos, doc with
  | S pos', String c rest =>
      if Ascii.eqb c "010" then line_column rest pos' (S line) 1
      else line_column rest pos' line (S column)
  | _, _ => (line, column)
  end.

Definition decode_error (msg doc : string) (pos : nat) : exn :=
  let (line, column) := line_column doc pos 1 1 in
  mkExn "JSONDecodeError"
        (msg ++ ": line " ++ Py.str_of_int (Z.of_nat line)
             ++ " column " ++ Py.str_of_int (Z.of_nat column)
             ++ " (char " ++ Py.str_of_int (Z.of_nat pos) ++ ")").

Definition outside_fragment : exn :=
  mkExn "NotImplementedError" "document outside the modelled fragment of JSON".

Definition loads (doc : string) : exc pyval :=
  let (s0, p0) := skip_ws doc 0 in
  match scan_once (S (S (String.length doc))) s0 p0 with
  | Parsed value rest pos =>
      match skip_ws rest pos with
      | (EmptyString, _) => Val value
      | (String _ _, stop) => Raise (decode_error "Extra data" doc stop)
      end
  | Stop pos => Raise (decode_error "Expecting value" doc pos)
  | Bad msg pos => Raise (decode_error msg doc pos)
  | Beyond => Raise outside_fragment
  end.

End Json.

(** ** A random generator for the concrete runs

    The loop of [random.shuffle] ([for i in reversed(range(1, len(x)))],
    [j = randbelow(i + 1)], [x[i], x[j] = x[j], x[i]]) over a linear
    congruential generator, which stands in for the Mersenne Twister. *)

Module Shuffle.

Definition next (g : Z) : Z := ((1103515245 * g + 12345) mod 2147483648)%Z.

(** A number below [n], and the next state. *)
Definition randbelow (n : nat) (g : Z) : nat * Z :=
  (Z.to_nat (next g / 65536) mod n, next g).

(** [x[i] = v] *)
Fixpoint update {A} (i : nat) (v : A) (x : list A) : list A :=
  match x, i with
  | [], _ => []
  | _ :: rest, O => v :: rest
  | a :: rest, S k => a :: update k v rest
  end.

(** [x[i], x[j] = x[j], x[i]] for two indices of the list *)
Definition swap {A} (i j : nat) (x : list A) : list A :=
  match nth_error x i, nth_error x j with
  | Some a, Some b => update j a (update i b x)
  | _, _ => x
  end.

(** The rounds [i], [i - 1], ..., [1]. *)
Fixpoint rounds (i : nat) (x : list string) (g : Z) : list string * Z :=
  match i with
  | O => (x, g)
  | S k =>
      let (j, g') := randbelow (S i) g in
      rounds k (swap i j x) g'
  end.

Definition shuffle (x : list string) (g : Z) : list string * Z :=
  rounds (List.length x - 1) x g.

Definition seed (a : Z) : Z := Z.abs a.

End Shuffle.

(** ** The outside world

    The state of the module-level generator of [random] (of a type [rng]),
    the requests sent so far to the two services, and the pauses taken. *)

Record world (rng : Type) : Type := mkWorld {
  rng_state : rng;
  llm_requests : nat;       (* requests sent to the text-generation service *)
  search_requests : nat;    (* requests sent to the job-search service *)
  slept : list nat          (* arguments of [time.sleep], latest first *)
}.
Arguments mkWorld {rng} rng_state llm_requests search_requests slept.
Arguments rng_state {rng} w.
Arguments llm_requests {rng} w.
Arguments search_requests {rng} w.
Arguments slept {rng} w.

(** ** Services for the concrete runs *)

Module Run.

(** A text-generation service that answers the [k]-th request with the
    [k]-th entry of a script, and with [last] after the script. *)
Definition scripted (script : list (exc string)) (last : exc string)
  : nat -> string -> string -> exc string :=
  fun k _ _ => nth k script last.

Definition quota_error : exn :=
  mkExn "ResourceExhausted" "429 Quota exceeded for quota metric".

Definition server_error : exn :=
  mkExn "InternalServerError" "500 An internal error has occurred".

(** Every request is refused for quota; the first request is refused for
    quota and the second fails on the server; every request fails on the
    server; every request is answered with [reply]. *)
Definition out_of_quota := scripted [] (Raise quota_error).
Definition failing := scripted [Raise quota_error; Raise server_error] (Val "unused").
Definition broken := scripted [] (Raise server_error).
Definition replying (reply : string) := scripted [] (Val reply).

(** The world the runs start in. *)
Definition start : world Z := mkWorld 2024%Z 0 0 [].

(** A job-search service that cannot be reached. *)
Definition unreachable : nat -> string -> string -> exc pyval :=
  fun _ _ _ => Raise (mkExn "ConnectionError" "Failed to establish a new connection").

(** A job-search service that answers every request with one document. *)
Definition answering (document : pyval) : nat -> string -> string -> exc pyval :=
  fun _ _ _ => Val document.

(** No float, list or dictionary is formatted in the runs below. *)
Definition no_repr : pyval -> string := fun _ => "<object>".

Fixpoint copies (n : nat) (c : string) : string :=
  match n with
  | O => EmptyString
  | S k => c ++ copies k c
  end.

(** Two items of a search result and the document that holds them. *)
Definition acme_listing : dict :=
  [ ("employer_name", VStr "Acme"); ("job_title", VStr "Engineer");
    ("job_city", VNone); ("job_description", VStr "Build things.");
    ("job_apply_link", VStr "https://acme.io/apply");
    ("employer_website", VStr "https://www.Acme.io/careers") ].

Definition techcorp_listing : dict :=
  [ ("employer_name", VStr "Tech, Corp."); ("employer_website", VNone) ].

Definition search_result : pyval :=
  VDict [("data", VList [VDict acme_listing; VDict techcorp_listing])].

(** A reply in a Markdown code fence. *)
Definition fenced_reply : string :=
  text [ "```json";
         "{" ++ quoted "role" ++ ": " ++ quoted "Data Scientist" ++ ", "
             ++ quoted "skills" ++ ": [" ++ quoted "SQL" ++ ", " ++ quoted "R" ++ "]}";
         "```" ].

End Run.

(** ** The log buffer of the dashboard

    [update_logs] of [app.py] (lines 86 to 93) works on the list kept in
    [st.session_state['logs']].  The time of day it prints is a parameter,
    and the text it hands to the placeholder of the page is returned with
    the new list. *)

Module App.

Definition log_entry (timestamp message : string) : string :=
  "[" ++ timestamp ++ "] " ++ message.

Definition log_html (logs : list string) : string :=
  "<div class=" ++ quoted "log-container" ++ ">" ++ String.concat "<br>" logs
    ++ "</div>".

Definition update_logs (timestamp message : string) (logs : list string)
  : list string * string :=
  let appended := (logs ++ [log_entry timestamp message])%list in
  let kept := if 50 <? List.length appended then tl appended else appended in
  (kept, log_html kept).

(** The buffer after a run of calls, given as pairs of a time and a message. *)
Definition log_all (calls : list (string * string)) (logs : list string)
  : list string :=
  fold_left (fun buffer call => fst (update_logs (fst call) (snd call) buffer))
            calls logs.

End App.

(** ** Further inputs for the concrete runs *)

Module Sample.

(** A text-generation service that refuses every prompt longer than
    [limit], and answers the other ones with [reply]. *)
Definition picky (limit : nat) (reply : string)
  : nat -> string -> string -> exc string :=
  fun _ _ prompt =>
    if String.length prompt <=? limit then Val reply
    else Raise (mkExn "InvalidArgument" "400 The prompt is too long").

(** A job record whose description is [null]. *)
Definition blank_job : dict :=
  [ ("company", VStr "Acme"); ("role", VStr "Engineer");
    ("job_description", VNone) ].

(** A run of calls of [update_logs], one per second of a minute. *)
Definition ticks : list (string * string) :=
  map (fun n => ("12:00:" ++ Py.str_of_int (Z.of_nat n), "tick")) (seq 10 50).

End Sample.
(** ** The agents *)

Section Agents.

(** State of the module-level generator of [random], and [random.shuffle]:
    it returns the list rearranged and the next generator state. *)
Variable rng : Type.
Variable shuffle : list string -> rng -> list string * rng.
Hypothesis shuffle_perm : forall l g, Permutation l (fst (shuffle l g)).

(** [random.seed(a)] *)
Variable seed_state : Z -> rng.

(** What the [k]-th request to the text-generation service does, given the
    API key and the prompt: [model.generate_content(prompt)] followed by
    [response.text] either yields the text or raises. *)
Variable generate_content : nat -> string -> string -> exc string.

(** What the [k]-th request to the job-search service does, given the API
    key and the query: [requests.get], [raise_for_status] and
    [response.json()] either yield the decoded document or raise. *)
Variable jsearch_request : nat -> string -> string -> exc pyval.

(** [json.loads] *)
Variable json_loads : string -> exc pyval.

(** [str(v)] of a float, a list or a dictionary *)
Variable repr_compound : pyval -> string.

(** A computation: it runs in a world, returns or raises, and leaves a world. *)
Definition M (A : Type) : Type := world rng -> exc A * world rng.

Definition ret {A} (a : A) : M A := fun w => (Val a, w).

Definition bind {A B} (c : M A) (k : A -> M B) : M B :=
  fun w =>
    match c w with
    | (Val a, w') => k a w'
    | (Raise e, w') => (Raise e, w')
    end.

Definition lift {A} (r : exc A) : M A := fun w => (r, w).

(** [try: body  except Exception as e: handler e] *)
Definition try_except {A} (body : M A) (handler : exn -> M A) : M A :=
  fun w =>
    match body w with
    | (Val a, w') => (Val a, w')
    | (Raise e, w') => handler e w'
    end.

Notation "x <- c ;; k" := (bind c (fun x => k))
  (at level 61, c at next level, right associativity).
Notation "x <~ r ;; k" := (bind (lift r) (fun x => k))
  (at level 61, r at next level, right associativity).

(** The world after one more request to the text-generation service, after
    one more request to the job-search service, and after a pause. *)
Definition after_text_request (w : world rng) : world rng :=
  mkWorld (rng_state w) (S (llm_requests w)) (search_requests w) (slept w).

Definition after_search_request (w : world rng) : world rng :=
  mkWorld (rng_state w) (llm_requests w) (S (search_requests w)) (slept w).

Definition after_sleep (seconds : nat) (w : world rng) : world rng :=
  mkWorld (rng_state w) (llm_requests w) (search_requests w) (seconds :: slept w).

Definition request_text (api_key prompt : string) : M string :=
  fun w => (generate_content (llm_requests w) api_key prompt, after_text_request w).

Definition request_jobs (rapidapi_key query : string) : M pyval :=
  fun w =>
    (jsearch_request (search_requests w) rapidapi_key query, after_search_request w).

Definition sleep (seconds : nat) : M unit :=
  fun w => (Val tt, after_sleep seconds w).

Definition random_shuffle (xs : list string) : M (list string) :=
  fun w =>
    let (ys, g) := shuffle xs (rng_state w) in
    (Val ys, mkWorld g (llm_requests w) (search_requests w) (slept w)).

Definition random_seed (a : Z) : M unit :=
  fun w =>
    (Val tt, mkWorld (seed_state a) (llm_requests w) (search_requests w) (slept w)).

(** What one round of a [for] loop does: it returns from the function, or
    goes on with the next round. *)
Inductive flow (A : Type) : Type :=
| Return (a : A)
| Continue.
Arguments Return {A} a.
Arguments Continue {A}.

(** [for x in xs: body x] followed by [after] *)
Fixpoint for_each {A B} (xs : list A) (body : A -> M (flow B)) (after : M B) : M B :=
  match xs with
  | [] => after
  | x :: rest =>
      r <- body x ;;
      match r with
      | Return b => ret b
      | Continue => for_each rest body after
      end
  end.

(** [str(v)], as an f-string formats a value *)
Definition py_str (v : pyval) : string :=
  match v with
  | VStr s => s
  | VNone => "None"
  | VBool true => "True"
  | VBool false => "False"
  | VInt z => Py.str_of_int z
  | _ => repr_compound v
  end.

(** *** get_gemini_response *)

Definition max_retries : nat := 3.
Definition base_delay : nat := 10.

(** ["429" in str(e) or "Quota exceeded" in str(e)] *)
Definition rate_limited (e : exn) : bool :=
  PyStr.contains "429" (exn_str e) || PyStr.contains "Quota exceeded" (exn_str e).

Definition attempt_once (prompt api_key : string) (attempt : nat)
  : M (flow (option string)) :=
  try_except
    (response_text <- request_text api_key prompt ;;
     ret (Return (Some response_text)))
    (fun e =>
       if rate_limited e then
         if attempt <? max_retries - 1 then
           let wait_time := base_delay * 2 ^ attempt in
           _ <- sleep wait_time ;;
           ret Continue
         else ret (Return None)
       else ret (Return (Some ("Error: " ++ exn_str e)))).

Definition get_gemini_response (prompt api_key : string) : M (option string) :=
  for_each (seq 0 max_retries) (attempt_once prompt api_key) (ret None).

(** The request numbered [llm_requests w + k] is the [k]-th attempt of a call
    started in [w]. *)
Definition attempt_outcome (prompt api_key : string) (w : world rng) (k : nat)
  : exc string :=
  generate_content (llm_requests w + k) api_key prompt.

(** [not response] for a response that is [None] or a string. *)
Definition falsy (response : option string) : bool :=
  match response with
  | None => true
  | Some s => negb (PyStr.nonempty s)
  end.

(** The string a response is once [not response] has been ruled out. *)
Definition text_of (response : option string) : string :=
  match response with
  | Some s => s
  | None => EmptyString
  end.

(** *** parse_resume_with_ai *)

Definition resume_prompt (truncated_resume : string) : string :=
  text [ "";
         "    Analyze the following resume text and extract the 'Job Role' (e.g., Python Developer, Data Scientist) and a list of 'Key Skills'.";
         "    Return ONLY valid JSON format like this:";
         "    {";
         "        " ++ quoted "role" ++ ": " ++ quoted "extracted role" ++ ",";
         "        " ++ quoted "skills" ++ ": [" ++ quoted "skill1" ++ ", "
                    ++ quoted "skill2" ++ ", " ++ quoted "skill3" ++ "]";
         "    }";
         "    ";
         "    Resume Text:";
         "    " ++ truncated_resume;
         "    " ].

Definition default_resume : pyval :=
  VDict [("role", VStr "Software Developer"); ("skills", VList [VStr "Python"])].

Definition failed_resume (e : exn) : pyval :=
  VDict [("role", VStr "Software Developer"); ("skills", VList []);
         ("error", VStr (exn_str e))].

(** The reply without its Markdown code fence (line 53). *)
Definition clean_reply (response_text : string) : string :=
  PyStr.strip (PyStr.replace "```" "" (PyStr.replace "```json" "" response_text)).

Definition parse_resume_with_ai (resume_text api_key : string) : M pyval :=
  let truncated_resume := PyStr.take 800 resume_text in
  let prompt := resume_prompt truncated_resume in
  try_except
    (response_text <- get_gemini_response prompt api_key ;;
     if falsy response_text then ret default_resume
     else
       let cleaned := clean_reply (text_of response_text) in
       lift (json_loads cleaned))
    (fun e => ret (failed_resume e)).


(** *** search_jobs_jsearch *)

Definition job_record (company role location : pyval) (hr_email : string)
    (job_description apply_link : pyval) (status : string) : dict :=
  [ ("company", company); ("role", role); ("location", location);
    ("hr_email", VStr hr_email); ("job_description", job_description);
    ("apply_link", apply_link); ("status", VStr status) ].

(** The best-guess contact address of a listing (lines 98 to 104). *)
Definition hr_email_for (company employer_website : pyval) : exc string :=
  domain <--
    (if Py.truthy employer_website then
       site <-- Py.str_receiver employer_website "replace" ;;
       parts <-- Py.split "/"
                   (PyStr.replace "www." ""
                      (PyStr.replace "http://" ""
                         (PyStr.replace "https://" "" site))) ;;
       Py.first parts
     else if Py.truthy company then
       name <-- Py.str_receiver company "lower" ;;
       Val (PyStr.replace "." ""
              (PyStr.replace "," ""
                 (PyStr.replace " " "" (PyStr.lower name))) ++ ".com")
     else Val "") ;;
  if PyStr.nonempty domain then Val ("hr@" ++ domain)
  else
    name <-- Py.str_receiver company "lower" ;;
    Val ("careers@" ++ PyStr.replace " " "" (PyStr.lower name) ++ ".com").

(** The body of the loop over the items of the search result. *)
Definition job_of_item (role location : string) (item : pyval) : exc dict :=
  company <-- Py.get item "employer_name" (VStr "Unknown Company") ;;
  job_title <-- Py.get item "job_title" (VStr role) ;;
  job_city <-- Py.get item "job_city" (VStr location) ;;
  let job_location := if Py.truthy job_city then job_city else VStr location in
  description <-- Py.get item "job_description" (VStr "") ;;
  job_description <-- Py.slice 800 description ;;
  apply_link <-- Py.get item "job_apply_link" (VStr "") ;;
  employer_website <-- Py.get item "employer_website" (VStr "") ;;
  hr_email <-- hr_email_for company employer_website ;;
  Val (job_record company job_title job_location hr_email
                  job_description apply_link "Found").

Fixpoint collect_jobs (role location : string) (items : list pyval)
    (jobs : list dict) : exc (list dict) :=
  match items with
  | [] => Val jobs
  | item :: rest =>
      job <-- job_of_item role location item ;;
      collect_jobs role location rest (jobs ++ [job])
  end.

(** Lines 83 to 116: the job records of a decoded search result. *)
Definition jobs_of_response (role location : string) (num_results : nat)
    (data : pyval) : exc (list dict) :=
  listing <-- Py.get data "data" (VList []) ;;
  page <-- Py.slice num_results listing ;;
  items <-- Py.iter page ;;
  collect_jobs role location items [].

Definition search_query (role location : string) : string :=
  role ++ " in " ++ location.

Definition search_jobs_jsearch (role location rapidapi_key : string)
    (num_results : nat) : M (list dict) :=
  try_except
    (data <- request_jobs rapidapi_key (search_query role location) ;;
     jobs <~ jobs_of_response role location num_results data ;;
     ret jobs)
    (fun _ => ret []).

(** A description cut to at most [n] characters (or, for a JSON array,
    [n] elements). *)
Definition capped (n : nat) (description : pyval) : Prop :=
  match description with
  | VStr s => String.length s <= n
  | VList items => List.length items <= n
  | _ => False
  end.

(** The text of a field of a job record, when it is a non-empty string. *)
Definition nonempty_text (job : dict) (key : string) : Prop :=
  exists s, Py.dict_get job key VNone = VStr s /\ s <> "".

(** *** simulate_job_discovery *)

Definition company_pool : list string :=
  [ "TechCorp Solutions"; "InnovateX"; "DataStream Inc."; "CloudNet Systems";
    "AlphaWave AI" ].

Definition simulated_email (company : string) : string :=
  "hr@" ++ PyStr.replace "." "" (PyStr.replace " " "" (PyStr.lower company))
        ++ ".com".

Definition simulated_description (role location company : string) : string :=
  "We are looking for a skilled " ++ role ++ " to join our team at " ++ company
    ++ " in " ++ location ++ ". "
    ++ "The ideal candidate should have strong technical skills and experience in software development.".

Definition simulated_job (role location company : string) : dict :=
  job_record (VStr company) (VStr role) (VStr location)
             (simulated_email company)
             (VStr (simulated_description role location company))
             (VStr "") "Found (Simulated)".

Definition simulate_job_discovery (role location : string) : M (list dict) :=
  companies <- random_shuffle company_pool ;;
  ret (map (simulated_job role location) (firstn 3 companies)).

(** *** discover_jobs *)

Definition discover_jobs (role location rapidapi_key : string)
  : M (list dict * string) :=
  let simulation :=
    jobs <- simulate_job_discovery role location ;;
    ret (jobs, "simulated") in
  if PyStr.nonempty rapidapi_key && PyStr.nonempty (PyStr.strip rapidapi_key) then
    jobs <- search_jobs_jsearch role location rapidapi_key 3 ;;
    match jobs with
    | _ :: _ => ret (jobs, "real")
    | [] => simulation
    end
  else simulation.

(** [random.seed(a)] followed by [discover_jobs(role, location, rapidapi_key)] *)
Definition seeded_discovery (a : Z) (role location rapidapi_key : string)
  : M (list dict * string) :=
  _ <- random_seed a ;;
  discover_jobs role location rapidapi_key.

(** *** generate_cover_letter *)

Definition cover_letter_prompt (role company description resume : string) : string :=
  text [ "Write a professional and personalized cover letter for the following job.";
         "Role: " ++ role;
         "Company: " ++ company;
         "Job Description: " ++ description;
         "";
         "Candidate Resume (first 500 chars):";
         resume;
         "";
         "Instructions:";
         "- Be concise (max 180 words)";
         "- Mention specific skills that match the job description";
         "- Be professional and enthusiastic";
         "- Do NOT use generic phrases like " ++ quoted "I am writing to express";
         "" ].

Definition fallback_marker : string := "Generated via Fallback Mode".

Definition fallback_cover_letter (role company : string) : string :=
  text [ "Dear Hiring Manager,";
         "";
         "I am excited to apply for the " ++ role ++ " position at " ++ company
           ++ ". Based on my experience and skills outlined in my resume, I am confident I can make a meaningful contribution to your team.";
         "";
         "My technical background aligns well with the requirements of this role. I am particularly drawn to "
           ++ company ++ "'s mission and believe my skills would be a strong match.";
         "";
         "I look forward to the opportunity to discuss how I can contribute. Thank you for your consideration.";
         "";
         "Sincerely,";
         "Applicant";
         "(Note: " ++ fallback_marker ++ " " ++ em_dash ++ " Gemini API rate limit reached)";
         "        " ].

(** The prompt of [generate_cover_letter] (lines 157 to 174); cutting the
    description fails on a value that cannot be sliced. *)
Definition cover_letter_request (resume_text : string) (job : dict) : exc string :=
  let job_description := Py.dict_get job "job_description" (VStr "") in
  let company := Py.dict_get job "company" (VStr "the company") in
  let role := Py.dict_get job "role" (VStr "the position") in
  description <-- Py.slice 400 job_description ;;
  Val (cover_letter_prompt (py_str role) (py_str company) (py_str description)
                           (PyStr.take 500 resume_text)).

Definition generate_cover_letter (resume_text : string) (job : dict)
    (api_key : string) : M string :=
  let company := Py.dict_get job "company" (VStr "the company") in
  let role := Py.dict_get job "role" (VStr "the position") in
  prompt <~ cover_letter_request resume_text job ;;
  response <- get_gemini_response prompt api_key ;;
  if falsy response
  then ret (fallback_cover_letter (py_str role) (py_str company))
  else ret (text_of response).

(** *** generate_interview_questions *)

(** What one round of the loop over [enumerate(found_jobs[:3], 1)] adds to
    [job_summaries]. *)
Definition job_summary (role : string) (i : nat) (job : dict) : exc string :=
  let company := Py.dict_get job "company" (VStr "Unknown") in
  jd <-- Py.slice 300 (Py.dict_get job "job_description" (VStr "")) ;;
  Val (nl ++ Py.str_of_int (Z.of_nat i) ++ ". " ++ py_str company ++ " - " ++ role
          ++ ":" ++ nl ++ py_str jd ++ nl).

Fixpoint summarize_jobs (role : string) (i : nat) (jobs : list dict)
    (job_summaries : string) : exc string :=
  match jobs with
  | [] => Val job_summaries
  | job :: rest =>
      summary <-- job_summary role i job ;;
      summarize_jobs role (S i) rest (job_summaries ++ summary)
  end.

Definition interview_prompt (job_summaries resume_snippet : string) : string :=
  text [ "You are an expert interview coach. Generate 10 targeted interview questions for a candidate who just applied to the following jobs.";
         "";
         "JOBS APPLIED TO:";
         job_summaries;
         "";
         "CANDIDATE RESUME (excerpt):";
         resume_snippet;
         "";
         "Generate 10 specific interview questions that:";
         "1. Match the technical skills required in the actual job descriptions above";
         "2. Reference the candidate's actual experience from their resume";
         "3. Include both technical and behavioral questions";
         "4. Are specific " ++ em_dash ++ " not generic";
         "";
         "Format as a numbered list. Each question should be on its own line.";
         "" ].

Definition fallback_questions (role : string) : string :=
  text [ "**Standard Interview Questions for " ++ role ++ "** *(Gemini API rate limit reached)*";
         "";
         "1. Walk me through your experience as a " ++ role ++ ".";
         "2. What tools and technologies do you use daily in your work as a " ++ role ++ "?";
         "3. Describe a challenging project you completed " ++ em_dash ++ " what was your role and what did you learn?";
         "4. How do you stay up-to-date with the latest trends in your field?";
         "5. Describe a situation where you had to debug a difficult problem under pressure.";
         "6. How do you approach working in a team with different skill sets?";
         "7. Tell me about a time you disagreed with a technical decision " ++ em_dash ++ " how was it resolved?";
         "8. What is your experience with code review and best practices?";
         "9. How do you handle multiple competing deadlines?";
         "10. Do you have any questions for the team about the role or company culture?";
         "        " ].

Definition generate_interview_questions (role resume_text : string)
    (found_jobs : list dict) (api_key : string) : M string :=
  job_summaries <~ summarize_jobs role 1 (firstn 3 found_jobs) "" ;;
  let resume_snippet := PyStr.take 600 resume_text in
  let prompt := interview_prompt job_summaries resume_snippet in
  response <- get_gemini_response prompt api_key ;;
  if falsy response then ret (fallback_questions role)
  else ret (text_of response).


(** *** Budget of a call of the client *)

(** Between two worlds, at most three requests to the text-generation
    service and at most 30 seconds of pauses. *)
Definition within_budget (w w' : world rng) : Prop :=
  llm_requests w' <= llm_requests w + 3
  /\ exists pauses,
       slept w' = (pauses ++ slept w)%list /\ list_sum pauses <= 30.

(** ** Properties *)

(** *** Strings *)

Lemma prefix_append (p s : string) : prefix p (p ++ s) = true.
Proof.
  induction p as [|c p IH]; simpl.
  - now destruct s.
  - destruct (ascii_dec c c) as [_|ne]; [exact IH | now elim ne].
Qed.

Lemma prefix_append_l (p a b : string) :
  prefix p a = true -> prefix p (a ++ b) = true.
Proof.
  revert a; induction p as [|c p IH]; intros a H.
  - now destruct (a ++ b).
  - destruct a as [|d a]; simpl in *; [discriminate|].
    destruct (ascii_dec c d); [now apply IH | discriminate].
Qed.

Lemma contains_prefix (sub s : string) :
  prefix sub s = true -> PyStr.contains sub s = true.
Proof.
  destruct s; simpl; intros H; [exact H | now rewrite H].
Qed.

Lemma contains_here (sub s : string) : PyStr.contains sub (sub ++ s) = true.
Proof. apply contains_prefix, prefix_append. Qed.

Lemma contains_cons (sub s : string) (c : ascii) :
  PyStr.contains sub s = true -> PyStr.contains sub (String c s) = true.
Proof. simpl; intros ->; apply orb_true_r. Qed.

Lemma contains_app_r (sub a b : string) :
  PyStr.contains sub b = true -> PyStr.contains sub (a ++ b) = true.
Proof.
  intros H; induction a as [|c a IH]; simpl append; [exact H|].
  now apply contains_cons.
Qed.

Lemma contains_app_l (sub a b : string) :
  PyStr.contains sub a = true -> PyStr.contains sub (a ++ b) = true.
Proof.
  induction a as [|c a IH]; intros H.
  - simpl in H. destruct sub; [|discriminate].
    now apply contains_prefix; destruct (EmptyString ++ b)%string.
  - change (String c a ++ b) with (String c (a ++ b)).
    simpl in H. apply orb_true_iff in H as [H|H].
    + apply contains_prefix.
      now apply (prefix_append_l sub (String c a) b).
    + now apply contains_cons, IH.
Qed.

Lemma prefix_split (p s : string) :
  prefix p s = true -> exists rest, s = p ++ rest.
Proof.
  revert s; induction p as [|c p IH]; intros s H.
  - now exists s.
  - destruct s as [|d s]; simpl in H; [discriminate|].
    destruct (ascii_dec c d) as [->|]; [|discriminate].
    destruct (IH s H) as (rest & ->). now exists rest.
Qed.

(** [sub in s] holds exactly when [sub] is a contiguous part of [s]. *)
Lemma contains_iff (sub s : string) :
  PyStr.contains sub s = true <-> exists a b, s = a ++ sub ++ b.
Proof.
  split.
  - induction s as [|c s IH]; cbn [PyStr.contains]; intros H.
    + apply prefix_split in H as (rest & H).
      exists EmptyString, rest. exact H.
    + apply orb_true_iff in H as [H|H].
      * apply prefix_split in H as (rest & H).
        exists EmptyString, rest. exact H.
      * destruct (IH H) as (a & b & ->).
        now exists (String c a), b.
  - intros (a & b & ->). apply contains_app_r, contains_here.
Qed.

Lemma take_length (n : nat) (s : string) : String.length (PyStr.take n s) <= n.
Proof.
  revert s; induction n as [|n IH]; intros [|c s]; simpl; try lia.
  specialize (IH s); lia.
Qed.

Lemma append_length (a b : string) :
  String.length (a ++ b) = String.length a + String.length b.
Proof. induction a as [|c a IH]; simpl; [reflexivity | now rewrite IH]. Qed.

(** Finds [sub] among the operands of a text built with [++]. *)
Ltac find_part :=
  lazymatch goal with
  | |- PyStr.contains ?sub (?sub ++ _) = true => apply contains_here
  | |- PyStr.contains _ (_ ++ _) = true =>
      first [ apply contains_app_l; find_part | apply contains_app_r; find_part ]
  end.

(** *** The text-generation client *)

Lemma attempt_once_run (prompt api_key : string) (attempt : nat) (w : world rng) :
  attempt_once prompt api_key attempt w =
  match generate_content (llm_requests w) api_key prompt with
  | Val reply => (Val (Return (Some reply)), after_text_request w)
  | Raise e =>
      if rate_limited e then
        if attempt <? max_retries - 1
        then (Val Continue,
              after_sleep (base_delay * 2 ^ attempt) (after_text_request w))
        else (Val (Return None), after_text_request w)
      else (Val (Return (Some ("Error: " ++ exn_str e))), after_text_request w)
  end.
Proof.
  unfold attempt_once, try_except, bind, request_text, ret, sleep.
  destruct (generate_content (llm_requests w) api_key prompt) as [reply|e];
    [reflexivity|].
  destruct (rate_limited e); [destruct (attempt <? max_retries - 1)|]; reflexivity.
Qed.

(** The response in terms of what the three requests do. *)
Lemma get_gemini_response_run (prompt api_key : string) (w : world rng) :
  fst (get_gemini_response prompt api_key w) =
  match attempt_outcome prompt api_key w 0 with
  | Val reply => Val (Some reply)
  | Raise e0 =>
      if rate_limited e0 then
        match attempt_outcome prompt api_key w 1 with
        | Val reply => Val (Some reply)
        | Raise e1 =>
            if rate_limited e1 then
              match attempt_outcome prompt api_key w 2 with
              | Val reply => Val (Some reply)
              | Raise e2 =>
                  if rate_limited e2 then Val None
                  else Val (Some ("Error: " ++ exn_str e2))
              end
            else Val (Some ("Error: " ++ exn_str e1))
        end
      else Val (Some ("Error: " ++ exn_str e0))
  end.
Proof.
  unfold attempt_outcome.
  rewrite Nat.add_0_r, Nat.add_1_r.
  replace (llm_requests w + 2) with (S (S (llm_requests w))) by lia.
  unfold get_gemini_response, max_retries; simpl seq.
  cbn [for_each]; unfold bind at 1; rewrite attempt_once_run.
  destruct (generate_content (llm_requests w) api_key prompt) as [r0|e0];
    [reflexivity|].
  destruct (rate_limited e0); [|reflexivity].
  cbn [Nat.ltb Nat.leb max_retries Nat.sub].
  unfold bind at 1; rewrite attempt_once_run. cbn [llm_requests after_sleep after_text_request].
  destruct (generate_content (S (llm_requests w)) api_key prompt) as [r1|e1];
    [reflexivity|].
  destruct (rate_limited e1); [|reflexivity].
  cbn [Nat.ltb Nat.leb max_retries Nat.sub].
  unfold bind at 1; rewrite attempt_once_run. cbn [llm_requests after_sleep after_text_request].
  destruct (generate_content (S (S (llm_requests w))) api_key prompt) as [r2|e2];
    [reflexivity|].
  destruct (rate_limited e2); reflexivity.
Qed.

(** C1. When the text-generation call raises a rate-limit error on each of
    the three attempts, [get_gemini_response] returns [None]; when an attempt
    raises any other error after rate-limited ones, it returns the string
    ["Error: "] followed by the error text; and in no case does it raise. *)
Theorem get_gemini_response_never_raises (prompt api_key : string) (w : world rng) :
  ((forall k, k < 3 -> exists e,
        attempt_outcome prompt api_key w k = Raise e /\ rate_limited e = true) ->
   fst (get_gemini_response prompt api_key w) = Val None)
  /\ (forall k e, k < 3 ->
        (forall i, i < k -> exists e',
            attempt_outcome prompt api_key w i = Raise e' /\ rate_limited e' = true) ->
        attempt_outcome prompt api_key w k = Raise e ->
        rate_limited e = false ->
        fst (get_gemini_response prompt api_key w)
        = Val (Some ("Error: " ++ exn_str e)))
  /\ (exists response, fst (get_gemini_response prompt api_key w) = Val response).
Proof.
  rewrite get_gemini_response_run.
  repeat split.
  - intros H.
    destruct (H 0) as (e0 & -> & ->); [lia|].
    destruct (H 1) as (e1 & -> & ->); [lia|].
    destruct (H 2) as (e2 & -> & ->); [lia|].
    reflexivity.
  - intros k e Hk Hprev Hraise Hother.
    destruct k as [|[|[|k]]]; try lia.
    + now rewrite Hraise, Hother.
    + destruct (Hprev 0) as (e0 & -> & ->); [lia|].
      now rewrite Hraise, Hother.
    + destruct (Hprev 0) as (e0 & -> & ->); [lia|].
      destruct (Hprev 1) as (e1 & -> & ->); [lia|].
      now rewrite Hraise, Hother.
  - destruct (attempt_outcome prompt api_key w 0) as [r0|e0]; [now eexists|].
    destruct (rate_limited e0); [|now eexists].
    destruct (attempt_outcome prompt api_key w 1) as [r1|e1]; [now eexists|].
    destruct (rate_limited e1); [|now eexists].
    destruct (attempt_outcome prompt api_key w 2) as [r2|e2]; [now eexists|].
    destruct (rate_limited e2); now eexists.
Qed.

(** *** The resume parser *)

Lemma parse_resume_with_ai_run (resume_text api_key : string) (w : world rng) :
  fst (parse_resume_with_ai resume_text api_key w) =
  match fst (get_gemini_response (resume_prompt (PyStr.take 800 resume_text)) api_key w) with
  | Val response =>
      if falsy response then Val default_resume
      else
        match json_loads (clean_reply (text_of response)) with
        | Val record => Val record
        | Raise e => Val (failed_resume e)
        end
  | Raise e => Val (failed_resume e)
  end.
Proof.
  unfold parse_resume_with_ai, try_except, bind, lift, ret.
  destruct (get_gemini_response _ api_key w) as [[response|e] w']; [|reflexivity].
  cbn [fst]. destruct (falsy response); [reflexivity|].
  now destruct (json_loads (clean_reply (text_of response))).
Qed.

(** C5 (amended). When the text-generation client returns [None], the parser
    returns the record with role "Software Developer" and skills ["Python"];
    when decoding the reply fails, it returns the record with role
    "Software Developer", an empty list of skills, and the error text. *)
Theorem parse_resume_fallback_records (resume_text api_key : string) (w : world rng) :
  let response :=
    fst (get_gemini_response (resume_prompt (PyStr.take 800 resume_text)) api_key w) in
  (response = Val None ->
   fst (parse_resume_with_ai resume_text api_key w)
   = Val (VDict [("role", VStr "Software Developer");
                 ("skills", VList [VStr "Python"])]))
  /\ (forall reply e,
        response = Val (Some reply) ->
        reply <> "" ->
        json_loads (clean_reply reply) = Raise e ->
        fst (parse_resume_with_ai resume_text api_key w)
        = Val (VDict [("role", VStr "Software Developer");
                      ("skills", VList []);
                      ("error", VStr (exn_str e))])).
Proof.
  cbv zeta. rewrite parse_resume_with_ai_run. split.
  - now intros ->.
  - intros reply e -> Hreply. cbn [text_of]. intros ->.
    destruct reply; [now elim Hreply | reflexivity].
Qed.


(** *** Job discovery *)

Lemma hr_email_for_nonempty (company employer_website : pyval) (hr_email : string) :
  hr_email_for company employer_website = Val hr_email -> hr_email <> "".
Proof.
  unfold hr_email_for, exc_bind.
  destruct (if Py.truthy employer_website then _ else _) as [domain|e];
    [|discriminate].
  destruct (PyStr.nonempty domain).
  - intros [= <-]; discriminate.
  - destruct (Py.str_receiver company "lower"); [|discriminate].
    intros [= <-]; discriminate.
Qed.

Lemma slice_capped (n : nat) (v sliced : pyval) :
  Py.slice n v = Val sliced -> capped n sliced.
Proof.
  destruct v; simpl; try discriminate; intros [= <-]; simpl.
  - apply take_length.
  - rewrite length_firstn; lia.
Qed.

(** A record built from a search item: its address is not empty and its
    description is cut to 800. *)
Lemma job_of_item_record (role location : string) (item : pyval) (job : dict) :
  job_of_item role location item = Val job ->
  exists company job_title job_location hr_email job_description apply_link,
    job = job_record company job_title job_location hr_email job_description
                     apply_link "Found"
    /\ hr_email <> ""
    /\ capped 800 job_description.
Proof.
  unfold job_of_item, exc_bind.
  destruct (Py.get item "employer_name" _) as [company|]; [|discriminate].
  destruct (Py.get item "job_title" _) as [job_title|]; [|discriminate].
  destruct (Py.get item "job_city" _) as [job_city|]; [|discriminate].
  destruct (Py.get item "job_description" _) as [description|]; [|discriminate].
  destruct (Py.slice 800 description) as [job_description|] eqn:Hslice;
    [|discriminate].
  destruct (Py.get item "job_apply_link" _) as [apply_link|]; [|discriminate].
  destruct (Py.get item "employer_website" _) as [employer_website|]; [|discriminate].
  destruct (hr_email_for company employer_website) as [hr_email|] eqn:Hmail;
    [|discriminate].
  intros [= <-].
  do 6 eexists; split; [reflexivity|]; split.
  - exact (hr_email_for_nonempty _ _ _ Hmail).
  - exact (slice_capped _ _ _ Hslice).
Qed.

Lemma collect_jobs_from_items (role location : string) (items : list pyval) :
  forall acc jobs,
    collect_jobs role location items acc = Val jobs ->
    forall job, In job jobs ->
      In job acc \/ exists item, In item items /\ job_of_item role location item = Val job.
Proof.
  induction items as [|item items IH]; simpl; intros acc jobs H job Hin.
  - injection H as <-; now left.
  - unfold exc_bind in H.
    destruct (job_of_item role location item) as [made|] eqn:Hitem; [|discriminate].
    destruct (IH _ _ H job Hin) as [Hacc|(it & Hit & Hjob)].
    + apply in_app_or in Hacc as [Hacc|[<-|[]]].
      * now left.
      * right; exists item; split; [now left | exact Hitem].
    + right; exists it; split; [now right | exact Hjob].
Qed.

Lemma search_jobs_jsearch_run (role location rapidapi_key : string)
    (num_results : nat) (w : world rng) :
  search_jobs_jsearch role location rapidapi_key num_results w =
  (match jsearch_request (search_requests w) rapidapi_key (search_query role location) with
   | Val data =>
       match jobs_of_response role location num_results data with
       | Val jobs => Val jobs
       | Raise _ => Val []
       end
   | Raise _ => Val []
   end, after_search_request w).
Proof.
  unfold search_jobs_jsearch, try_except, bind, lift, ret, request_jobs.
  destruct (jsearch_request _ _ _) as [data|e]; [|reflexivity].
  now destruct (jobs_of_response role location num_results data).
Qed.

Lemma search_jobs_jsearch_records (role location rapidapi_key : string)
    (num_results : nat) (w : world rng) :
  exists jobs,
    fst (search_jobs_jsearch role location rapidapi_key num_results w) = Val jobs
    /\ forall job, In job jobs ->
         exists item, job_of_item role location item = Val job.
Proof.
  rewrite search_jobs_jsearch_run; simpl.
  destruct (jsearch_request _ _ _) as [data|e];
    [|exists []; split; [reflexivity | intros ? []]].
  destruct (jobs_of_response role location num_results data) as [jobs|e] eqn:H;
    [|exists []; split; [reflexivity | intros ? []]].
  exists jobs; split; [reflexivity|]. intros job Hin.
  unfold jobs_of_response, exc_bind in H.
  destruct (Py.get data "data" _); [|discriminate].
  destruct (Py.slice num_results _); [|discriminate].
  destruct (Py.iter _) as [items|]; [|discriminate].
  destruct (collect_jobs_from_items _ _ _ _ _ H job Hin) as [[]|(item & _ & Hjob)].
  now exists item.
Qed.

Lemma simulate_job_discovery_run (role location : string) (w : world rng) :
  simulate_job_discovery role location w =
  (Val (map (simulated_job role location)
            (firstn 3 (fst (shuffle company_pool (rng_state w))))),
   mkWorld (snd (shuffle company_pool (rng_state w)))
           (llm_requests w) (search_requests w) (slept w)).
Proof.
  unfold simulate_job_discovery, bind, random_shuffle, ret.
  now destruct (shuffle company_pool (rng_state w)).
Qed.

Lemma In_firstn {A} (n : nat) (l : list A) (x : A) : In x (firstn n l) -> In x l.
Proof.
  intros H. rewrite <- (firstn_skipn n l). apply in_or_app; now left.
Qed.

Lemma shuffled_pool_length (g : rng) :
  List.length (firstn 3 (fst (shuffle company_pool g))) = 3.
Proof.
  rewrite length_firstn, <- (Permutation_length (shuffle_perm company_pool g)).
  reflexivity.
Qed.

Lemma shuffled_pool_member (g : rng) (company : string) :
  In company (firstn 3 (fst (shuffle company_pool g))) -> In company company_pool.
Proof.
  intros H. apply In_firstn in H.
  exact (Permutation_in _ (Permutation_sym (shuffle_perm company_pool g)) H).
Qed.

Lemma company_pool_distinct : NoDup company_pool.
Proof.
  unfold company_pool.
  repeat (constructor; [simpl; intuition discriminate|]). constructor.
Qed.

(** The three companies selected are drawn without replacement. *)
Lemma simulated_companies_distinct (g : rng) :
  NoDup (firstn 3 (fst (shuffle company_pool g))).
Proof.
  pose proof (Permutation_NoDup (shuffle_perm company_pool g) company_pool_distinct)
    as H.
  rewrite <- (firstn_skipn 3 (fst (shuffle company_pool g))) in H.
  exact (NoDup_app_remove_r _ _ H).
Qed.

(** The addresses of the five companies of the pool. *)
Lemma simulated_email_of_pool (company : string) :
  In company company_pool ->
  In (simulated_email company)
     [ "hr@techcorpsolutions.com"; "hr@innovatex.com"; "hr@datastreaminc.com";
       "hr@cloudnetsystems.com"; "hr@alphawaveai.com" ].
Proof.
  intros [<-|[<-|[<-|[<-|[<-|[]]]]]]; vm_compute; tauto.
Qed.

Lemma discover_jobs_simulated (role location rapidapi_key : string) (w : world rng) :
  PyStr.strip rapidapi_key = "" ->
  discover_jobs role location rapidapi_key w =
  (Val (map (simulated_job role location)
            (firstn 3 (fst (shuffle company_pool (rng_state w)))), "simulated"),
   mkWorld (snd (shuffle company_pool (rng_state w)))
           (llm_requests w) (search_requests w) (slept w)).
Proof.
  intros Hkey. unfold discover_jobs. rewrite Hkey, andb_false_r.
  unfold bind at 1. now rewrite simulate_job_discovery_run.
Qed.

(** C2. Without a search-API key (the key is empty, or blank), the discovery
    returns three listings and the mode "simulated"; each listing is made for
    a company of the pool and carries the address hr@ followed by the
    company's name in lower case without spaces and periods and by .com,
    which is not empty. *)
Theorem discover_jobs_without_key (role location rapidapi_key : string) (w : world rng) :
  PyStr.strip rapidapi_key = "" ->
  exists jobs w',
    discover_jobs role location rapidapi_key w = (Val (jobs, "simulated"), w')
    /\ List.length jobs = 3
    /\ forall job, In job jobs ->
         exists company,
           In company company_pool
           /\ Py.dict_get job "company" VNone = VStr company
           /\ Py.dict_get job "hr_email" VNone = VStr (simulated_email company)
           /\ simulated_email company
              = "hr@" ++ PyStr.replace "." "" (PyStr.replace " " "" (PyStr.lower company))
                      ++ ".com"
           /\ In (simulated_email company)
                 [ "hr@techcorpsolutions.com"; "hr@innovatex.com";
                   "hr@datastreaminc.com"; "hr@cloudnetsystems.com";
                   "hr@alphawaveai.com" ]
           /\ nonempty_text job "hr_email".
Proof.
  intros Hkey. rewrite (discover_jobs_simulated _ _ _ _ Hkey).
  do 2 eexists; split; [reflexivity|]; split.
  - rewrite length_map. apply shuffled_pool_length.
  - intros job Hin. apply in_map_iff in Hin as (company & <- & Hin).
    apply shuffled_pool_member in Hin.
    exists company; repeat split; try reflexivity; trivial.
    + now apply simulated_email_of_pool.
    + eexists; split; [reflexivity | discriminate].
Qed.

Lemma job_of_item_email (role location : string) (item job : dict) :
  job_of_item role location (VDict item) = Val job ->
  exists hr_email,
    hr_email_for (Py.dict_get item "employer_name" (VStr "Unknown Company"))
                 (Py.dict_get item "employer_website" (VStr "")) = Val hr_email
    /\ Py.dict_get job "hr_email" VNone = VStr hr_email.
Proof.
  unfold job_of_item, exc_bind, Py.get.
  destruct (Py.slice 800 (Py.dict_get item "job_description" (VStr "")))
    as [job_description|]; [|discriminate].
  destruct (hr_email_for (Py.dict_get item "employer_name" (VStr "Unknown Company"))
                         (Py.dict_get item "employer_website" (VStr "")))
    as [hr_email|]; [|discriminate].
  intros [= <-]. now exists hr_email.
Qed.

(** C3 (amended). In the real job discovery, a listing whose employer
    website is "https://www.Acme.io/careers" gets the contact hr@Acme.io:
    protocol, "www." and path are stripped and the case of the domain is
    kept (the website "https://www.acme.io/careers" gives hr@acme.io); a
    listing without a website whose company is "Tech, Corp." gets
    hr@techcorp.com. *)
Theorem hr_email_synthesis (role location : string) (item job : dict) :
  job_of_item role location (VDict item) = Val job ->
  (Py.dict_get item "employer_website" (VStr "") = VStr "https://www.Acme.io/careers" ->
   Py.dict_get job "hr_email" VNone = VStr "hr@Acme.io")
  /\ (Py.dict_get item "employer_website" (VStr "") = VStr "https://www.acme.io/careers" ->
      Py.dict_get job "hr_email" VNone = VStr "hr@acme.io")
  /\ (Py.truthy (Py.dict_get item "employer_website" (VStr "")) = false ->
      Py.dict_get item "employer_name" (VStr "Unknown Company") = VStr "Tech, Corp." ->
      Py.dict_get job "hr_email" VNone = VStr "hr@techcorp.com").
Proof.
  intros Hjob. destruct (job_of_item_email _ _ _ _ Hjob) as (hr_email & Hmail & ->).
  repeat split.
  - intros Hsite. rewrite Hsite in Hmail. now injection Hmail as <-.
  - intros Hsite. rewrite Hsite in Hmail. now injection Hmail as <-.
  - intros Hsite Hname. unfold hr_email_for in Hmail.
    rewrite Hsite, Hname in Hmail. now injection Hmail as <-.
Qed.

Lemma simulated_description_length (role location company : string) :
  String.length (simulated_description role location company)
  = 151 + String.length role + String.length company + String.length location.
Proof.
  unfold simulated_description. rewrite !append_length. simpl. lia.
Qed.

(** The records of a discovery without a key. *)
Lemma simulated_jobs_described (role location rapidapi_key : string) (w : world rng) :
  PyStr.strip rapidapi_key = "" ->
  exists jobs w',
    discover_jobs role location rapidapi_key w = (Val (jobs, "simulated"), w')
    /\ List.length jobs = 3
    /\ forall job, In job jobs ->
         exists company,
           In company company_pool
           /\ Py.dict_get job "job_description" VNone
              = VStr (simulated_description role location company).
Proof.
  intros Hkey. rewrite (discover_jobs_simulated _ _ _ _ Hkey).
  do 2 eexists; split; [reflexivity|]; split.
  - rewrite length_map. apply shuffled_pool_length.
  - intros job Hin. apply in_map_iff in Hin as (company & <- & Hin).
    apply shuffled_pool_member in Hin. now exists company.
Qed.

(** The two ways [discover_jobs] ends. *)
Lemma discover_jobs_cases (role location rapidapi_key : string) (w : world rng) :
  exists jobs mode w',
    discover_jobs role location rapidapi_key w = (Val (jobs, mode), w')
    /\ ((mode = "real" /\ jobs <> []
         /\ fst (search_jobs_jsearch role location rapidapi_key 3 w) = Val jobs)
        \/ (mode = "simulated"
            /\ jobs = map (simulated_job role location)
                          (firstn 3 (fst (shuffle company_pool (rng_state w))))
            /\ (PyStr.nonempty rapidapi_key && PyStr.nonempty (PyStr.strip rapidapi_key)
                = true ->
                fst (search_jobs_jsearch role location rapidapi_key 3 w) = Val []))).
Proof.
  unfold discover_jobs.
  destruct (PyStr.nonempty rapidapi_key && PyStr.nonempty (PyStr.strip rapidapi_key)).
  - unfold bind at 1.
    destruct (search_jobs_jsearch_records role location rapidapi_key 3 w)
      as (found & Hfound & _).
    rewrite search_jobs_jsearch_run in *. simpl fst in Hfound. rewrite Hfound.
    destruct found as [|job found].
    + unfold bind at 1. rewrite simulate_job_discovery_run.
      do 3 eexists; split; [reflexivity|]. right. now repeat split.
    + do 3 eexists; split; [reflexivity|]. left. now repeat split.
  - unfold bind at 1. rewrite simulate_job_discovery_run.
    do 3 eexists; split; [reflexivity|]. right.
    repeat split. discriminate.
Qed.

(** C4 (amended). Every job record the discovery returns carries a
    non-empty hr_email.  The job_description of a record of the real search is
    cut to 800 characters; a simulated record carries the whole sentence made
    from role, company and location, 151 characters longer than the three
    together.  The generators cut the description again, to 400 characters
    in the cover-letter prompt and to 300 in a job summary. *)
Theorem job_records_invariant (role location rapidapi_key : string) (w : world rng) :
  (exists jobs mode w',
     discover_jobs role location rapidapi_key w = (Val (jobs, mode), w')
     /\ forall job, In job jobs ->
          nonempty_text job "hr_email"
          /\ (mode = "real" ->
              capped 800 (Py.dict_get job "job_description" VNone))
          /\ (mode = "simulated" ->
              exists company,
                In company company_pool
                /\ Py.dict_get job "job_description" VNone
                   = VStr (simulated_description role location company)
                /\ String.length (simulated_description role location company)
                   = 151 + String.length role + String.length company
                     + String.length location))
  /\ (forall resume_text job description,
        Py.dict_get job "job_description" (VStr "") = VStr description ->
        cover_letter_request resume_text job
        = Val (cover_letter_prompt
                 (py_str (Py.dict_get job "role" (VStr "the position")))
                 (py_str (Py.dict_get job "company" (VStr "the company")))
                 (PyStr.take 400 description) (PyStr.take 500 resume_text))
        /\ String.length (PyStr.take 400 description) <= 400)
  /\ (forall title i job description,
        Py.dict_get job "job_description" (VStr "") = VStr description ->
        job_summary title i job
        = Val (nl ++ Py.str_of_int (Z.of_nat i) ++ ". "
                  ++ py_str (Py.dict_get job "company" (VStr "Unknown")) ++ " - "
                  ++ title ++ ":" ++ nl ++ PyStr.take 300 description ++ nl)
        /\ String.length (PyStr.take 300 description) <= 300).
Proof.
  split; [|split].
  - destruct (discover_jobs_cases role location rapidapi_key w)
      as (jobs & mode & w' & Hrun & Hcases).
    exists jobs, mode, w'; split; [exact Hrun|]. intros job Hin.
    destruct Hcases as [(-> & _ & Hsearch)|(-> & -> & _)].
    + destruct (search_jobs_jsearch_records role location rapidapi_key 3 w)
        as (found & Hfound & Hitems).
      rewrite Hsearch in Hfound; injection Hfound as <-.
      destruct (Hitems job Hin) as (item & Hitem).
      apply job_of_item_record in Hitem
        as (c & t & l & mail & d & a & -> & Hmail & Hcap).
      split; [|split].
      * now exists mail.
      * intros _. exact Hcap.
      * discriminate.
    + apply in_map_iff in Hin as (company & <- & Hin).
      apply shuffled_pool_member in Hin.
      split; [|split].
      * eexists; split; [reflexivity | discriminate].
      * discriminate.
      * intros _. exists company; repeat split; trivial.
        apply simulated_description_length.
  - intros resume_text job description H. split; [|apply take_length].
    unfold cover_letter_request. now rewrite H.
  - intros title i job description H. split; [|apply take_length].
    unfold job_summary. now rewrite H.
Qed.

(** C8. Seeding the generator with the same number before each of two calls
    of the discovery without a key makes both calls return the same
    listings: those of the first three companies of the pool as shuffled
    from that seed, in that order. *)
Theorem seeded_discovery_repeats (a : Z) (role location rapidapi_key : string)
    (w : world rng) :
  PyStr.strip rapidapi_key = "" ->
  exists jobs w1 w2,
    seeded_discovery a role location rapidapi_key w = (Val (jobs, "simulated"), w1)
    /\ seeded_discovery a role location rapidapi_key w1 = (Val (jobs, "simulated"), w2)
    /\ map (fun job => Py.dict_get job "company" VNone) jobs
       = map VStr (firstn 3 (fst (shuffle company_pool (seed_state a)))).
Proof.
  intros Hkey. unfold seeded_discovery, bind, random_seed.
  rewrite !(discover_jobs_simulated _ _ _ _ Hkey). cbn [rng_state].
  do 3 eexists; split; [reflexivity|]; split.
  - rewrite (discover_jobs_simulated _ _ _ _ Hkey). reflexivity.
  - rewrite map_map. now apply map_ext.
Qed.

(** C9. The discovery reports the mode "real" only with a non-empty list of
    jobs.  When the real search yields no job, it returns the three simulated
    listings and the mode "simulated"; a failure of the search request is
    such a case, the search then returning the empty list. *)
Theorem discover_jobs_real_has_jobs (role location rapidapi_key : string)
    (w : world rng) :
  exists jobs mode w',
    discover_jobs role location rapidapi_key w = (Val (jobs, mode), w')
    /\ (mode = "real" -> jobs <> [])
    /\ (jobs, mode) <> ([], "real")
    /\ (fst (search_jobs_jsearch role location rapidapi_key 3 w) = Val [] ->
        mode = "simulated" /\ List.length jobs = 3)
    /\ (forall e,
          jsearch_request (search_requests w) rapidapi_key (search_query role location)
          = Raise e ->
          fst (search_jobs_jsearch role location rapidapi_key 3 w) = Val []).
Proof.
  destruct (discover_jobs_cases role location rapidapi_key w)
    as (jobs & mode & w' & Hrun & Hcases).
  exists jobs, mode, w'; split; [exact Hrun|].
  assert (Hfail : forall e,
             jsearch_request (search_requests w) rapidapi_key
                             (search_query role location) = Raise e ->
             fst (search_jobs_jsearch role location rapidapi_key 3 w) = Val []).
  { intros e He. rewrite search_jobs_jsearch_run; simpl. now rewrite He. }
  destruct Hcases as [(-> & Hjobs & Hsearch)|(-> & -> & _)].
  - split; [trivial|]. split; [intros [= ->]; now elim Hjobs|].
    split; [|exact Hfail].
    intros Hnone. rewrite Hnone in Hsearch. injection Hsearch as <-. now elim Hjobs.
  - split; [discriminate|]. split; [discriminate|].
    split; [|exact Hfail].
    intros _. split; [reflexivity|].
    rewrite length_map. apply shuffled_pool_length.
Qed.

(** *** The content generators *)

Lemma generate_cover_letter_run (resume_text : string) (job : dict)
    (api_key : string) (w : world rng) :
  fst (generate_cover_letter resume_text job api_key w) =
  match cover_letter_request resume_text job with
  | Val prompt =>
      match fst (get_gemini_response prompt api_key w) with
      | Val response =>
          if falsy response
          then Val (fallback_cover_letter
                      (py_str (Py.dict_get job "role" (VStr "the position")))
                      (py_str (Py.dict_get job "company" (VStr "the company"))))
          else Val (text_of response)
      | Raise e => Raise e
      end
  | Raise e => Raise e
  end.
Proof.
  unfold generate_cover_letter, bind, lift, ret.
  destruct (cover_letter_request resume_text job) as [prompt|e]; [|reflexivity].
  destruct (get_gemini_response prompt api_key w) as [[response|e] w'];
    [|reflexivity].
  cbn [fst]. now destruct (falsy response).
Qed.

Lemma generate_interview_questions_run (role resume_text : string)
    (found_jobs : list dict) (api_key : string) (w : world rng) :
  fst (generate_interview_questions role resume_text found_jobs api_key w) =
  match summarize_jobs role 1 (firstn 3 found_jobs) "" with
  | Val job_summaries =>
      match fst (get_gemini_response
                   (interview_prompt job_summaries (PyStr.take 600 resume_text))
                   api_key w) with
      | Val response =>
          if falsy response then Val (fallback_questions role)
          else Val (text_of response)
      | Raise e => Raise e
      end
  | Raise e => Raise e
  end.
Proof.
  unfold generate_interview_questions, bind, lift, ret.
  destruct (summarize_jobs role 1 (firstn 3 found_jobs) "") as [summaries|e];
    [|reflexivity].
  destruct (get_gemini_response _ api_key w) as [[response|e] w'];
    [|reflexivity].
  cbn [fst]. now destruct (falsy response).
Qed.

Lemma fallback_cover_letter_parts (role company : string) :
  PyStr.contains fallback_marker (fallback_cover_letter role company) = true
  /\ PyStr.contains role (fallback_cover_letter role company) = true
  /\ PyStr.contains company (fallback_cover_letter role company) = true.
Proof.
  unfold fallback_cover_letter, text. cbn [String.concat].
  split; [|split]; find_part.
Qed.

(** C7. Whenever the text-generation call returns [None], the cover letter
    is the static fallback made for the role and the company of the job
    record; that text contains the marker "Generated via Fallback Mode", the
    role and the company. *)
Theorem cover_letter_fallback (resume_text : string) (job : dict)
    (api_key : string) (w : world rng) (prompt role company : string) :
  cover_letter_request resume_text job = Val prompt ->
  fst (get_gemini_response prompt api_key w) = Val None ->
  Py.dict_get job "role" (VStr "the position") = VStr role ->
  Py.dict_get job "company" (VStr "the company") = VStr company ->
  fst (generate_cover_letter resume_text job api_key w)
  = Val (fallback_cover_letter role company)
  /\ PyStr.contains fallback_marker (fallback_cover_letter role company) = true
  /\ PyStr.contains role (fallback_cover_letter role company) = true
  /\ PyStr.contains company (fallback_cover_letter role company) = true.
Proof.
  intros Hprompt Hnone Hrole Hcompany.
  split; [|apply fallback_cover_letter_parts].
  rewrite generate_cover_letter_run, Hprompt, Hnone, Hrole, Hcompany.
  reflexivity.
Qed.

(** C10. A response that is the empty string is handled as [None] is: for
    either, the parser returns the default record, the cover-letter
    generator its static fallback, and the interview-question generator its
    static list of questions. *)
Theorem falsy_response_gives_fallback (response : option string) :
  falsy response = true ->
  (response = None \/ response = Some "")
  /\ (forall resume_text api_key w,
        fst (get_gemini_response (resume_prompt (PyStr.take 800 resume_text))
                                 api_key w) = Val response ->
        fst (parse_resume_with_ai resume_text api_key w) = Val default_resume)
  /\ (forall resume_text job api_key w prompt,
        cover_letter_request resume_text job = Val prompt ->
        fst (get_gemini_response prompt api_key w) = Val response ->
        fst (generate_cover_letter resume_text job api_key w)
        = Val (fallback_cover_letter
                 (py_str (Py.dict_get job "role" (VStr "the position")))
                 (py_str (Py.dict_get job "company" (VStr "the company")))))
  /\ (forall role resume_text found_jobs api_key w job_summaries,
        summarize_jobs role 1 (firstn 3 found_jobs) "" = Val job_summaries ->
        fst (get_gemini_response
               (interview_prompt job_summaries (PyStr.take 600 resume_text))
               api_key w) = Val response ->
        fst (generate_interview_questions role resume_text found_jobs api_key w)
        = Val (fallback_questions role)).
Proof.
  intros Hfalsy. split; [|split; [|split]].
  - destruct response as [[|c reply]|]; [now right | discriminate | now left].
  - intros resume_text api_key w H.
    now rewrite parse_resume_with_ai_run, H, Hfalsy.
  - intros resume_text job api_key w prompt Hprompt H.
    now rewrite generate_cover_letter_run, Hprompt, H, Hfalsy.
  - intros role resume_text found_jobs api_key w job_summaries Hsum H.
    now rewrite generate_interview_questions_run, Hsum, H, Hfalsy.
Qed.

(** *** Further properties of the text-generation client *)

(** The response and the world a call leaves, in terms of what the three
    requests do. *)
Lemma get_gemini_response_world (prompt api_key : string) (w : world rng) :
  snd (get_gemini_response prompt api_key w) =
  match attempt_outcome prompt api_key w 0 with
  | Val _ => after_text_request w
  | Raise e0 =>
      if rate_limited e0 then
        let w1 := after_sleep 10 (after_text_request w) in
        match attempt_outcome prompt api_key w 1 with
        | Val _ => after_text_request w1
        | Raise e1 =>
            if rate_limited e1 then
              after_text_request (after_sleep 20 (after_text_request w1))
            else after_text_request w1
        end
      else after_text_request w
  end.
Proof.
  unfold attempt_outcome.
  rewrite Nat.add_0_r, Nat.add_1_r.
  unfold get_gemini_response, max_retries; simpl seq.
  cbn [for_each]; unfold bind at 1; rewrite attempt_once_run.
  destruct (generate_content (llm_requests w) api_key prompt) as [r0|e0];
    [reflexivity|].
  destruct (rate_limited e0); [|reflexivity].
  cbn [Nat.ltb Nat.leb max_retries Nat.sub].
  unfold bind at 1; rewrite attempt_once_run.
  cbn [llm_requests after_sleep after_text_request].
  destruct (generate_content (S (llm_requests w)) api_key prompt) as [r1|e1];
    [reflexivity|].
  destruct (rate_limited e1); [|reflexivity].
  cbn [Nat.ltb Nat.leb max_retries Nat.sub].
  unfold bind at 1; rewrite attempt_once_run.
  cbn [llm_requests after_sleep after_text_request].
  destruct (generate_content (S (S (llm_requests w))) api_key prompt) as [r2|e2];
    [reflexivity|].
  destruct (rate_limited e2); reflexivity.
Qed.

(** X1. A call of [get_gemini_response] sends one, two or three requests to
    the text-generation service and pauses once between two consecutive
    requests, 10 seconds and then 20, never after the last one; it leaves the
    random generator and the search service alone. *)
Theorem get_gemini_response_requests_and_pauses (prompt api_key : string)
    (w : world rng) :
  let w' := snd (get_gemini_response prompt api_key w) in
  ((llm_requests w' = llm_requests w + 1 /\ slept w' = slept w)
   \/ (llm_requests w' = llm_requests w + 2 /\ slept w' = 10 :: slept w)
   \/ (llm_requests w' = llm_requests w + 3 /\ slept w' = 20 :: 10 :: slept w))
  /\ rng_state w' = rng_state w
  /\ search_requests w' = search_requests w.
Proof.
  cbv zeta. rewrite get_gemini_response_world.
  destruct (attempt_outcome prompt api_key w 0) as [r0|e0].
  - split; [left; split; [simpl; lia | reflexivity] | now split].
  - destruct (rate_limited e0).
    + cbv zeta.
      destruct (attempt_outcome prompt api_key w 1) as [r1|e1].
      * split; [right; left; split; [simpl; lia | reflexivity] | now split].
      * destruct (rate_limited e1).
        -- split; [right; right; split; [simpl; lia | reflexivity] | now split].
        -- split; [right; left; split; [simpl; lia | reflexivity] | now split].
    + split; [left; split; [simpl; lia | reflexivity] | now split].
Qed.

(** X2. [get_gemini_response] returns [None] exactly when each of the three
    requests raises a rate-limit error: [None] is never the result of a
    reply or of another kind of error. *)
Theorem get_gemini_response_none_iff (prompt api_key : string) (w : world rng) :
  fst (get_gemini_response prompt api_key w) = Val None
  <-> forall k, k < 3 -> exists e,
        attempt_outcome prompt api_key w k = Raise e /\ rate_limited e = true.
Proof.
  rewrite get_gemini_response_run. split.
  - intros H k Hk.
    destruct (attempt_outcome prompt api_key w 0) as [r0|e0] eqn:E0;
      [discriminate|].
    destruct (rate_limited e0) eqn:R0; [|discriminate].
    destruct (attempt_outcome prompt api_key w 1) as [r1|e1] eqn:E1;
      [discriminate|].
    destruct (rate_limited e1) eqn:R1; [|discriminate].
    destruct (attempt_outcome prompt api_key w 2) as [r2|e2] eqn:E2;
      [discriminate|].
    destruct (rate_limited e2) eqn:R2; [|discriminate].
    destruct k as [|[|[|k]]]; [| | |lia].
    + exists e0; now rewrite E0.
    + exists e1; now rewrite E1.
    + exists e2; now rewrite E2.
  - intros H.
    destruct (H 0) as (e0 & -> & ->); [lia|].
    destruct (H 1) as (e1 & -> & ->); [lia|].
    destruct (H 2) as (e2 & -> & ->); [lia|].
    reflexivity.
Qed.

(** X3. A reply that comes at the first, second or third request, after
    rate-limit errors only, is returned as it is. *)
Theorem get_gemini_response_returns_reply (prompt api_key : string)
    (w : world rng) (k : nat) (reply : string) :
  k < 3 ->
  (forall i, i < k -> exists e,
      attempt_outcome prompt api_key w i = Raise e /\ rate_limited e = true) ->
  attempt_outcome prompt api_key w k = Val reply ->
  fst (get_gemini_response prompt api_key w) = Val (Some reply).
Proof.
  intros Hk Hprev Hreply. rewrite get_gemini_response_run.
  destruct k as [|[|[|k]]]; [| | |lia].
  - now rewrite Hreply.
  - destruct (Hprev 0) as (e0 & -> & ->); [lia|]. now rewrite Hreply.
  - destruct (Hprev 0) as (e0 & -> & ->); [lia|].
    destruct (Hprev 1) as (e1 & -> & ->); [lia|]. now rewrite Hreply.
Qed.

Lemma get_gemini_response_first_error (prompt api_key : string) (w : world rng)
    (e : exn) :
  attempt_outcome prompt api_key w 0 = Raise e ->
  rate_limited e = false ->
  fst (get_gemini_response prompt api_key w) = Val (Some ("Error: " ++ exn_str e)).
Proof.
  intros He Hother. now rewrite get_gemini_response_run, He, Hother.
Qed.

(** *** Further properties of the callers of the client *)

(** X4. When the next request to the text-generation service fails with an
    error that is not a rate-limit error, no caller falls back: the cover
    letter and the interview questions are the text "Error: " followed by
    the error text, and the parser hands that text to the JSON decoder, so
    that the error it reports is the decoder's. *)
Theorem service_error_becomes_text (api_key : string) (w : world rng) (e : exn) :
  (forall prompt, attempt_outcome prompt api_key w 0 = Raise e) ->
  rate_limited e = false ->
  (forall resume_text job prompt,
      cover_letter_request resume_text job = Val prompt ->
      fst (generate_cover_letter resume_text job api_key w)
      = Val ("Error: " ++ exn_str e))
  /\ (forall role resume_text found_jobs job_summaries,
        summarize_jobs role 1 (firstn 3 found_jobs) "" = Val job_summaries ->
        fst (generate_interview_questions role resume_text found_jobs api_key w)
        = Val ("Error: " ++ exn_str e))
  /\ (forall resume_text,
        fst (parse_resume_with_ai resume_text api_key w)
        = match json_loads (clean_reply ("Error: " ++ exn_str e)) with
          | Val record => Val record
          | Raise e' => Val (failed_resume e')
          end).
Proof.
  intros Hfail Hother. split; [|split].
  - intros resume_text job prompt Hprompt.
    rewrite generate_cover_letter_run, Hprompt.
    now rewrite (get_gemini_response_first_error _ _ _ _ (Hfail prompt) Hother).
  - intros role resume_text found_jobs job_summaries Hsum.
    rewrite generate_interview_questions_run, Hsum.
    now rewrite (get_gemini_response_first_error _ _ _ _ (Hfail _) Hother).
  - intros resume_text. rewrite parse_resume_with_ai_run.
    now rewrite (get_gemini_response_first_error _ _ _ _ (Hfail _) Hother).
Qed.

Lemma truthy_text_nonempty (response : option string) :
  falsy response = false -> text_of response <> "".
Proof. destruct response as [[|c s]|]; simpl; intros H; discriminate. Qed.

Lemma fallback_cover_letter_nonempty (role company : string) :
  fallback_cover_letter role company <> "".
Proof. discriminate. Qed.

Lemma fallback_questions_nonempty (role : string) : fallback_questions role <> "".
Proof. discriminate. Qed.

(** X5. Neither generator ever returns the empty string: the text it
    returns is a non-empty reply of the service or the static fallback. *)
Theorem generated_text_nonempty (api_key : string) (w : world rng) :
  (forall resume_text job letter,
      fst (generate_cover_letter resume_text job api_key w) = Val letter ->
      letter <> "")
  /\ (forall role resume_text found_jobs questions,
        fst (generate_interview_questions role resume_text found_jobs api_key w)
        = Val questions ->
        questions <> "").
Proof.
  split.
  - intros resume_text job letter. rewrite generate_cover_letter_run.
    destruct (cover_letter_request resume_text job) as [prompt|]; [|discriminate].
    destruct (fst (get_gemini_response prompt api_key w)) as [response|];
      [|discriminate].
    destruct (falsy response) eqn:F; intros [= <-].
    + apply fallback_cover_letter_nonempty.
    + now apply truthy_text_nonempty.
  - intros role resume_text found_jobs questions.
    rewrite generate_interview_questions_run.
    destruct (summarize_jobs role 1 (firstn 3 found_jobs) "") as [summaries|];
      [|discriminate].
    destruct (fst (get_gemini_response _ api_key w)) as [response|];
      [|discriminate].
    destruct (falsy response) eqn:F; intros [= <-].
    + apply fallback_questions_nonempty.
    + now apply truthy_text_nonempty.
Qed.

(** *** Further properties of the job discovery *)

Lemma collect_jobs_in_order (role location : string) (items : list pyval) :
  forall acc jobs,
    collect_jobs role location items acc = Val jobs ->
    exists made,
      jobs = (acc ++ made)%list
      /\ Forall2 (fun item job => job_of_item role location item = Val job)
                 items made.
Proof.
  induction items as [|item items IH]; simpl; intros acc jobs H.
  - injection H as <-. exists []. now rewrite app_nil_r.
  - unfold exc_bind in H.
    destruct (job_of_item role location item) as [job|] eqn:Hitem; [|discriminate].
    destruct (IH _ _ H) as (made & -> & Hall).
    exists (job :: made). split; [now rewrite <- app_assoc | now constructor].
Qed.

Lemma collect_jobs_stops (role location : string) (items : list pyval) :
  forall acc item e,
    In item items -> job_of_item role location item = Raise e ->
    exists e', collect_jobs role location items acc = Raise e'.
Proof.
  induction items as [|first items IH]; simpl; intros acc item e Hin Hitem; [easy|].
  unfold exc_bind.
  destruct (job_of_item role location first) as [job|e1] eqn:Hfirst;
    [|now exists e1].
  destruct Hin as [->|Hin]; [congruence|].
  exact (IH _ _ _ Hin Hitem).
Qed.

Lemma chars_length (s : string) : List.length (Py.chars s) = String.length s.
Proof. induction s as [|c s IH]; simpl; [reflexivity | now rewrite IH]. Qed.

Lemma iter_slice_length (n : nat) (listing page : pyval) (items : list pyval) :
  Py.slice n listing = Val page -> Py.iter page = Val items ->
  List.length items <= n.
Proof.
  destruct listing; simpl; try discriminate; intros [= <-]; simpl; intros [= <-].
  - rewrite chars_length. apply take_length.
  - rewrite length_firstn. lia.
Qed.

(** X6. [search_jobs_jsearch] never returns more than [num_results] records,
    whatever the search service answers. *)
Theorem search_jobs_jsearch_at_most (role location rapidapi_key : string)
    (num_results : nat) (w : world rng) :
  exists jobs,
    fst (search_jobs_jsearch role location rapidapi_key num_results w) = Val jobs
    /\ List.length jobs <= num_results.
Proof.
  rewrite search_jobs_jsearch_run; cbn [fst].
  destruct (jsearch_request _ _ _) as [data|e];
    [|exists []; split; [reflexivity | simpl; lia]].
  destruct (jobs_of_response role location num_results data) as [jobs|e] eqn:H;
    [|exists []; split; [reflexivity | simpl; lia]].
  exists jobs; split; [reflexivity|].
  unfold jobs_of_response, exc_bind in H.
  destruct (Py.get data "data" (VList [])) as [listing|]; [|discriminate].
  destruct (Py.slice num_results listing) as [page|] eqn:Hpage; [|discriminate].
  destruct (Py.iter page) as [items|] eqn:Hitems; [|discriminate].
  destruct (collect_jobs_in_order _ _ _ _ _ H) as (made & -> & Hall).
  rewrite app_nil_l, <- (Forall2_length Hall).
  exact (iter_slice_length _ _ _ _ Hpage Hitems).
Qed.

(** X7. When the search service answers with a document whose "data" is a
    list, [search_jobs_jsearch] returns one record for each of the first
    [num_results] items, in their order, if every one of these items can be
    converted; if a single one of them cannot, it returns no record at all. *)
Theorem search_jobs_jsearch_all_or_nothing (role location rapidapi_key : string)
    (num_results : nat) (w : world rng) (document : dict) (items : list pyval) :
  jsearch_request (search_requests w) rapidapi_key (search_query role location)
  = Val (VDict document) ->
  Py.dict_get document "data" (VList []) = VList items ->
  (forall jobs,
      Forall2 (fun item job => job_of_item role location item = Val job)
              (firstn num_results items) jobs ->
      fst (search_jobs_jsearch role location rapidapi_key num_results w) = Val jobs)
  /\ (forall item e,
        In item (firstn num_results items) ->
        job_of_item role location item = Raise e ->
        fst (search_jobs_jsearch role location rapidapi_key num_results w) = Val []).
Proof.
  intros Hanswer Hdata.
  rewrite search_jobs_jsearch_run, Hanswer; cbn [fst].
  unfold jobs_of_response, exc_bind, Py.get. rewrite Hdata. cbn [Py.slice Py.iter].
  split.
  - intros jobs Hall.
    destruct (collect_jobs role location (firstn num_results items) [])
      as [made|e] eqn:H.
    + destruct (collect_jobs_in_order _ _ _ _ _ H) as (made' & -> & Hmade).
      rewrite app_nil_l. f_equal.
      clear H. revert jobs Hall.
      induction Hmade as [|item job rest made' Hjob _ IH]; intros jobs Hall;
        inversion Hall as [|? job' ? jobs' Hjob' Hrest]; subst; [reflexivity|].
      rewrite Hjob in Hjob'. injection Hjob' as <-. f_equal. now apply IH.
    + exfalso. clear Hanswer Hdata. revert H.
      generalize (@nil dict).
      induction Hall as [|item job rest jobs' Hjob _ IH]; intros acc; simpl;
        [discriminate|].
      unfold exc_bind. rewrite Hjob. apply IH.
  - intros item e Hin Hitem.
    destruct (collect_jobs_stops role location _ [] item e Hin Hitem) as (e' & ->).
    reflexivity.
Qed.

(** X8. [discover_jobs] sends exactly one request to the search service when
    a key that is not blank is given and none otherwise; it sends no request
    to the text-generation service and never pauses; and when it reports the
    mode "real" it has not touched the random generator. *)
Theorem discover_jobs_requests (role location rapidapi_key : string)
    (w : world rng) :
  let w' := snd (discover_jobs role location rapidapi_key w) in
  llm_requests w' = llm_requests w
  /\ slept w' = slept w
  /\ search_requests w'
     = (if PyStr.nonempty rapidapi_key && PyStr.nonempty (PyStr.strip rapidapi_key)
        then S (search_requests w) else search_requests w)
  /\ (forall jobs,
        fst (discover_jobs role location rapidapi_key w) = Val (jobs, "real") ->
        rng_state w' = rng_state w).
Proof.
  cbv zeta. unfold discover_jobs.
  destruct (PyStr.nonempty rapidapi_key && PyStr.nonempty (PyStr.strip rapidapi_key)).
  - unfold bind.
    destruct (search_jobs_jsearch_records role location rapidapi_key 3 w)
      as (found & Hfound & _).
    rewrite search_jobs_jsearch_run in *. cbn [fst] in Hfound. rewrite Hfound.
    destruct found as [|job found].
    + rewrite simulate_job_discovery_run. cbn.
      do 3 (split; [reflexivity|]). intros jobs H; discriminate H.
    + cbn. now repeat split.
  - unfold bind. rewrite simulate_job_discovery_run. cbn.
    do 3 (split; [reflexivity|]). intros jobs H; discriminate H.
Qed.

Lemma simulated_email_injective (a b : string) :
  In a company_pool -> In b company_pool ->
  simulated_email a = simulated_email b -> a = b.
Proof.
  intros [<-|[<-|[<-|[<-|[<-|[]]]]]] [<-|[<-|[<-|[<-|[<-|[]]]]]] H;
    try reflexivity; vm_compute in H; discriminate H.
Qed.

(** X9. The simulated listings are drawn without replacement: in a result
    of mode "simulated" no two records have the same company, nor the same
    contact address. *)
Theorem simulated_listings_distinct (role location rapidapi_key : string)
    (w w' : world rng) (jobs : list dict) :
  discover_jobs role location rapidapi_key w = (Val (jobs, "simulated"), w') ->
  NoDup (map (fun job => Py.dict_get job "company" VNone) jobs)
  /\ NoDup (map (fun job => Py.dict_get job "hr_email" VNone) jobs).
Proof.
  intros Hrun.
  destruct (discover_jobs_cases role location rapidapi_key w)
    as (jobs0 & mode & w0 & Hrun0 & Hcases).
  rewrite Hrun in Hrun0. injection Hrun0 as <- <- <-.
  destruct Hcases as [(Hmode & _)|(_ & -> & _)]; [discriminate Hmode|].
  pose proof (simulated_companies_distinct (rng_state w)) as Hdistinct.
  rewrite !map_map. split.
  - apply NoDup_map_NoDup_ForallPairs; [|exact Hdistinct].
    intros a b _ _ H. change (VStr a = VStr b) in H. now injection H.
  - apply NoDup_map_NoDup_ForallPairs; [|exact Hdistinct].
    intros a b Ha Hb H.
    change (VStr (simulated_email a) = VStr (simulated_email b)) in H.
    assert (E : simulated_email a = simulated_email b) by congruence.
    apply shuffled_pool_member in Ha, Hb.
    exact (simulated_email_injective a b Ha Hb E).
Qed.

Lemma get_gemini_response_total (prompt api_key : string) (w : world rng) :
  exists response, fst (get_gemini_response prompt api_key w) = Val response.
Proof.
  rewrite get_gemini_response_run.
  destruct (attempt_outcome prompt api_key w 0) as [r0|e0]; [now eexists|].
  destruct (rate_limited e0); [|now eexists].
  destruct (attempt_outcome prompt api_key w 1) as [r1|e1]; [now eexists|].
  destruct (rate_limited e1); [|now eexists].
  destruct (attempt_outcome prompt api_key w 2) as [r2|e2]; [now eexists|].
  destruct (rate_limited e2); now eexists.
Qed.

(** A description that can be cut: a string or a list. *)
Lemma capped_sliceable (n m : nat) (description : pyval) :
  capped n description -> exists cut, Py.slice m description = Val cut.
Proof. destruct description; simpl; intros H; try easy; now eexists. Qed.

Lemma discovered_description_sliceable (role location rapidapi_key : string)
    (w w' : world rng) (jobs : list dict) (mode : string) (job : dict) (n : nat) :
  discover_jobs role location rapidapi_key w = (Val (jobs, mode), w') ->
  In job jobs ->
  exists cut, Py.slice n (Py.dict_get job "job_description" (VStr "")) = Val cut.
Proof.
  intros Hrun Hin.
  destruct (discover_jobs_cases role location rapidapi_key w)
    as (jobs0 & mode0 & w0 & Hrun0 & Hcases).
  rewrite Hrun in Hrun0. injection Hrun0 as <- <- <-.
  destruct Hcases as [(_ & _ & Hsearch)|(_ & -> & _)].
  - destruct (search_jobs_jsearch_records role location rapidapi_key 3 w)
      as (found & Hfound & Hitems).
    rewrite Hsearch in Hfound; injection Hfound as <-.
    destruct (Hitems job Hin) as (item & Hitem).
    apply job_of_item_record in Hitem as (c & t & l & mail & d & a & -> & _ & Hcap).
    exact (capped_sliceable 800 n d Hcap).
  - apply in_map_iff in Hin as (company & <- & _). now eexists.
Qed.

Lemma summarize_jobs_total (role : string) (jobs : list dict) :
  (forall job, In job jobs ->
     exists cut, Py.slice 300 (Py.dict_get job "job_description" (VStr "")) = Val cut) ->
  forall i job_summaries,
    exists text, summarize_jobs role i jobs job_summaries = Val text.
Proof.
  induction jobs as [|job jobs IH]; intros Hall i job_summaries; simpl.
  - now eexists.
  - unfold exc_bind, job_summary at 1.
    destruct (Hall job (or_introl eq_refl)) as (cut & ->). simpl.
    apply IH. intros j Hj. apply Hall. now right.
Qed.

(** X10. The generators accept what the discovery returns: for every record
    of a result of [discover_jobs], real or simulated, the cover-letter
    generator returns a letter, and for the whole list the interview-question
    generator returns its questions; neither raises. *)
Theorem generators_accept_discovered_jobs (role location rapidapi_key : string)
    (w w' : world rng) (jobs : list dict) (mode : string) :
  discover_jobs role location rapidapi_key w = (Val (jobs, mode), w') ->
  (forall job resume_text api_key w2,
      In job jobs ->
      exists letter,
        fst (generate_cover_letter resume_text job api_key w2) = Val letter)
  /\ (forall title resume_text api_key w2,
        exists questions,
          fst (generate_interview_questions title resume_text jobs api_key w2)
          = Val questions).
Proof.
  intros Hrun. split.
  - intros job resume_text api_key w2 Hin.
    rewrite generate_cover_letter_run. unfold cover_letter_request, exc_bind.
    destruct (discovered_description_sliceable _ _ _ _ _ _ _ job 400 Hrun Hin)
      as (cut & ->).
    destruct (get_gemini_response_total
                (cover_letter_prompt
                   (py_str (Py.dict_get job "role" (VStr "the position")))
                   (py_str (Py.dict_get job "company" (VStr "the company")))
                   (py_str cut) (PyStr.take 500 resume_text)) api_key w2)
      as (response & ->).
    destruct (falsy response); now eexists.
  - intros title resume_text api_key w2.
    rewrite generate_interview_questions_run.
    destruct (summarize_jobs_total title (firstn 3 jobs)) with (i := 1)
      (job_summaries := EmptyString) as (summaries & ->).
    { intros job Hin. apply In_firstn in Hin.
      exact (discovered_description_sliceable _ _ _ _ _ _ _ job 300 Hrun Hin). }
    destruct (get_gemini_response_total
                (interview_prompt summaries (PyStr.take 600 resume_text)) api_key w2)
      as (response & ->).
    destruct (falsy response); now eexists.
Qed.

Lemma slice_raises_type_error (n : nat) (v : pyval) (e : exn) :
  Py.slice n v = Raise e -> exn_class e = "TypeError".
Proof. destruct v; simpl; intros [= <-]; reflexivity. Qed.

(** X11. The cover-letter generator raises only when the job_description of
    the job cannot be sliced (it is neither a string nor a list); the
    exception is then the TypeError of the slice, and it is raised before
    any request is sent: the world is left as it was. *)
Theorem cover_letter_raises_before_request (resume_text : string) (job : dict)
    (api_key : string) (w : world rng) (e : exn) :
  fst (generate_cover_letter resume_text job api_key w) = Raise e ->
  Py.slice 400 (Py.dict_get job "job_description" (VStr "")) = Raise e
  /\ exn_class e = "TypeError"
  /\ snd (generate_cover_letter resume_text job api_key w) = w.
Proof.
  unfold generate_cover_letter, cover_letter_request, bind, lift, exc_bind.
  destruct (Py.slice 400 (Py.dict_get job "job_description" (VStr "")))
    as [cut|e0] eqn:Hslice.
  - destruct (get_gemini_response_total
                (cover_letter_prompt
                   (py_str (Py.dict_get job "role" (VStr "the position")))
                   (py_str (Py.dict_get job "company" (VStr "the company")))
                   (py_str cut) (PyStr.take 500 resume_text)) api_key w)
      as (response & Hresponse).
    destruct (get_gemini_response _ api_key w) as [[r|e1] w1];
      cbn [fst] in Hresponse; [|discriminate].
    destruct (falsy r); discriminate.
  - cbn. intros [= <-]. split; [reflexivity|]. split; [|reflexivity].
    exact (slice_raises_type_error _ _ _ Hslice).
Qed.

(** *** Further properties of the synthesised addresses *)

Lemma contains_char_cons (c d : ascii) (s : string) :
  PyStr.contains (String c EmptyString) (String d s)
  = if ascii_dec c d then true else PyStr.contains (String c EmptyString) s.
Proof.
  cbn [PyStr.contains prefix]. destruct (ascii_dec c d); [|reflexivity].
  now destruct s.
Qed.

Lemma contains_char_app (c : ascii) (a b : string) :
  PyStr.contains (String c EmptyString) (a ++ b)
  = PyStr.contains (String c EmptyString) a || PyStr.contains (String c EmptyString) b.
Proof.
  induction a as [|d a IH]; [reflexivity|].
  change (String d a ++ b) with (String d (a ++ b)).
  rewrite !contains_char_cons. now destruct (ascii_dec c d).
Qed.

(** Replacing a character by nothing removes it. *)
Lemma replace_char_removes (c : ascii) (s : string) :
  PyStr.contains (String c EmptyString) (PyStr.replace (String c EmptyString) "" s)
  = false.
Proof.
  unfold PyStr.replace.
  induction s as [|d s IH]; [reflexivity|].
  cbn [PyStr.replace_from prefix String.length Nat.sub].
  destruct (ascii_dec c d) as [->|Hne].
  - replace (if prefix "" s then _ else _)
      with (PyStr.replace_from (String d "") "" 0 s) by now destruct s.
    exact IH.
  - rewrite contains_char_cons. destruct (ascii_dec c d); [contradiction | exact IH].
Qed.

(** and brings in no other character. *)
Lemma replace_char_keeps_absent (c d : ascii) (s : string) :
  PyStr.contains (String d EmptyString) s = false ->
  PyStr.contains (String d EmptyString) (PyStr.replace (String c EmptyString) "" s)
  = false.
Proof.
  unfold PyStr.replace.
  induction s as [|x s IH]; [reflexivity|].
  rewrite contains_char_cons. destruct (ascii_dec d x) as [|Hne]; [discriminate|].
  intros H. cbn [PyStr.replace_from prefix String.length Nat.sub].
  destruct (ascii_dec c x).
  - replace (if prefix "" s then _ else _)
      with (PyStr.replace_from (String c "") "" 0 s) by now destruct s.
    now apply IH.
  - rewrite contains_char_cons. destruct (ascii_dec d x); [contradiction|].
    now apply IH.
Qed.

(** X12. An address made from a company name contains no space: this holds
    for the address of every simulated listing, and for the address the real
    search makes for a listing without a website, which contains no comma
    either. *)
Theorem company_address_has_no_space :
  (forall company, PyStr.contains " " (simulated_email company) = false)
  /\ (forall company employer_website hr_email,
        Py.truthy employer_website = false ->
        hr_email_for company employer_website = Val hr_email ->
        PyStr.contains " " hr_email = false
        /\ PyStr.contains "," hr_email = false).
Proof.
  split.
  - intros company. unfold simulated_email.
    change (PyStr.contains " "
              (PyStr.replace "." "" (PyStr.replace " " "" (PyStr.lower company))
                 ++ ".com") = false).
    rewrite contains_char_app.
    rewrite (replace_char_keeps_absent "." " " _ (replace_char_removes " " _)).
    reflexivity.
  - intros company employer_website hr_email Hsite.
    unfold hr_email_for, exc_bind. rewrite Hsite.
    destruct company as [|b|z|q|name|items|fields];
      try (cbn; discriminate);
      try (destruct b; cbn; discriminate);
      try (cbn [Py.truthy]; destruct (negb _); cbn; discriminate);
      try (destruct items; cbn; discriminate);
      try (destruct fields; cbn; discriminate).
    destruct name as [|c name]; [cbn; intros [= <-]; now split|].
    cbn [Py.truthy PyStr.nonempty Py.str_receiver].
    set (cleaned := PyStr.replace "." "" (PyStr.replace "," ""
                      (PyStr.replace " " "" (PyStr.lower (String c name))))).
    assert (Hspace : PyStr.contains " " cleaned = false).
    { apply replace_char_keeps_absent, replace_char_keeps_absent.
      apply replace_char_removes. }
    assert (Hcomma : PyStr.contains "," cleaned = false).
    { apply replace_char_keeps_absent, replace_char_removes. }
    assert (Hdomain : PyStr.nonempty (cleaned ++ ".com") = true)
      by now destruct cleaned.
    rewrite Hdomain. intros [= <-].
    change (PyStr.contains " " (cleaned ++ ".com") = false
            /\ PyStr.contains "," (cleaned ++ ".com") = false).
    rewrite !contains_char_app, Hspace, Hcomma. now split.
Qed.



(** *** The cleaning of a reply *)

(** A pattern is not found in a text that lacks its first character. *)
Lemma replace_from_passes (c : ascii) (pattern new body tail : string) :
  PyStr.contains (String c EmptyString) body = false ->
  PyStr.replace_from (String c pattern) new 0 (body ++ tail)
  = body ++ PyStr.replace_from (String c pattern) new 0 tail.
Proof.
  induction body as [|d body IH]; [reflexivity|].
  rewrite contains_char_cons. destruct (ascii_dec c d) as [|Hne]; [discriminate|].
  intros H. change (String d body ++ tail) with (String d (body ++ tail)).
  cbn [PyStr.replace_from prefix].
  destruct (ascii_dec c d); [contradiction|].
  now rewrite (IH H).
Qed.

Lemma replace_absent (c : ascii) (pattern new s : string) :
  PyStr.contains (String c EmptyString) s = false ->
  PyStr.replace (String c pattern) new s = s.
Proof.
  intros H. unfold PyStr.replace.
  pose proof (replace_from_passes c pattern new s "" H) as E.
  assert (Hnil : forall t : string, t ++ "" = t)
    by (induction t as [|x t IHt]; simpl; [reflexivity | now rewrite IHt]).
  now rewrite !Hnil in E.
Qed.

Lemma rstrip_app_space (c : ascii) (s : string) :
  PyStr.isspace c = true -> PyStr.rstrip (s ++ String c "") = PyStr.rstrip s.
Proof.
  intros Hc. induction s as [|d s IH]; simpl; [now rewrite Hc | now rewrite IH].
Qed.

Lemma strip_app_space (c : ascii) (s : string) :
  PyStr.isspace c = true -> PyStr.strip (s ++ String c "") = PyStr.strip s.
Proof.
  intros Hc. unfold PyStr.strip. induction s as [|d s IH].
  - simpl. now rewrite Hc.
  - change (String d s ++ String c "") with (String d (s ++ String c "")).
    cbn [PyStr.lstrip]. destruct (PyStr.isspace d); [exact IH|].
    exact (rstrip_app_space c (String d s) Hc).
Qed.

(** X14. A reply without a backtick reaches the JSON decoder with only the
    white space around it removed; and a reply made of a Markdown code fence,
    with or without the tag "json", around a body without a backtick is
    reduced to that body, stripped. *)
Theorem clean_reply_removes_fence :
  (forall reply,
      PyStr.contains "`" reply = false -> clean_reply reply = PyStr.strip reply)
  /\ (forall body,
        PyStr.contains "`" body = false ->
        clean_reply ("```json" ++ nl ++ body ++ nl ++ "```") = PyStr.strip body
        /\ clean_reply ("```" ++ nl ++ body ++ nl ++ "```") = PyStr.strip body).
Proof.
  split.
  - intros reply H. unfold clean_reply.
    now rewrite (replace_absent "`" "``json" "" reply H),
                (replace_absent "`" "``" "" reply H).
  - intros body H.
    assert (Hpadded : PyStr.contains "`" (nl ++ body) = false).
    { unfold nl. change (String "010" "" ++ body) with (String "010" body).
      rewrite contains_char_cons. now destruct (ascii_dec "`" "010"). }
    assert (Hstrip : PyStr.strip ((nl ++ body) ++ nl) = PyStr.strip body).
    { unfold nl at 2. rewrite strip_app_space by reflexivity. reflexivity. }
    unfold clean_reply. split.
    + change (PyStr.replace "```json" "" ("```json" ++ nl ++ body ++ nl ++ "```"))
        with (PyStr.replace_from "```json" "" 0 ((nl ++ body) ++ (nl ++ "```"))).
      rewrite (replace_from_passes "`" "``json" "" _ _ Hpadded).
      change (PyStr.replace_from "```json" "" 0 (nl ++ "```")) with (nl ++ "```").
      change (PyStr.replace "```" "" ((nl ++ body) ++ nl ++ "```"))
        with (PyStr.replace_from "```" "" 0 ((nl ++ body) ++ (nl ++ "```"))).
      rewrite (replace_from_passes "`" "``" "" _ _ Hpadded).
      exact Hstrip.
    + change (PyStr.replace "```json" "" ("```" ++ nl ++ body ++ nl ++ "```"))
        with ("```" ++ PyStr.replace_from "```json" "" 0
                         ((nl ++ body) ++ (nl ++ "```"))).
      rewrite (replace_from_passes "`" "``json" "" _ _ Hpadded).
      change (PyStr.replace_from "```json" "" 0 (nl ++ "```")) with (nl ++ "```").
      change (PyStr.replace "```" "" ("```" ++ (nl ++ body) ++ nl ++ "```"))
        with (PyStr.replace_from "```" "" 0 ((nl ++ body) ++ (nl ++ "```"))).
      rewrite (replace_from_passes "`" "``" "" _ _ Hpadded).
      exact Hstrip.
Qed.

(** *** Defaults of a search record, and the requests of the callers *)

Lemma dict_get_missing (d : dict) (key : string) (default : pyval) :
  Py.has_key d key = false -> Py.dict_get d key default = default.
Proof.
  induction d as [|[k v] d IH]; simpl; [reflexivity|].
  destruct (String.eqb k key); [discriminate | exact IH].
Qed.

Lemma job_of_item_fields (role location : string) (item job : dict) :
  job_of_item role location (VDict item) = Val job ->
  Py.dict_get job "company" VNone
  = Py.dict_get item "employer_name" (VStr "Unknown Company")
  /\ Py.dict_get job "role" VNone = Py.dict_get item "job_title" (VStr role)
  /\ Py.dict_get job "location" VNone
     = (if Py.truthy (Py.dict_get item "job_city" (VStr location))
        then Py.dict_get item "job_city" (VStr location) else VStr location)
  /\ Py.dict_get job "apply_link" VNone = Py.dict_get item "job_apply_link" (VStr "")
  /\ Py.dict_get job "status" VNone = VStr "Found".
Proof.
  unfold job_of_item, exc_bind, Py.get.
  destruct (Py.slice 800 (Py.dict_get item "job_description" (VStr "")))
    as [job_description|]; [|discriminate].
  destruct (hr_email_for (Py.dict_get item "employer_name" (VStr "Unknown Company"))
                         (Py.dict_get item "employer_website" (VStr "")))
    as [hr_email|]; [|discriminate].
  intros [= <-]. now repeat split.
Qed.

(** X18. In a record of the real search, a field the listing lacks takes its
    default: the company is "Unknown Company", the role is the role searched
    for and the apply link is empty; the location is the city of the listing
    when that is given, and the location searched for when the city is
    absent, null or empty, so that it is never empty for a non-empty search
    location. *)
Theorem search_record_defaults (role location : string) (item job : dict) :
  job_of_item role location (VDict item) = Val job ->
  (Py.has_key item "employer_name" = false ->
   Py.dict_get job "company" VNone = VStr "Unknown Company")
  /\ (Py.has_key item "job_title" = false ->
      Py.dict_get job "role" VNone = VStr role)
  /\ (Py.has_key item "job_apply_link" = false ->
      Py.dict_get job "apply_link" VNone = VStr "")
  /\ (Py.has_key item "job_city" = false
      \/ Py.truthy (Py.dict_get item "job_city" VNone) = false ->
      Py.dict_get job "location" VNone = VStr location)
  /\ (location <> "" -> Py.truthy (Py.dict_get job "location" VNone) = true).
Proof.
  intros Hjob.
  destruct (job_of_item_fields _ _ _ _ Hjob) as (-> & -> & -> & -> & _).
  split; [|split; [|split; [|split]]].
  - intros H. now rewrite dict_get_missing.
  - intros H. now rewrite dict_get_missing.
  - intros H. now rewrite dict_get_missing.
  - intros [H|H].
    + rewrite (dict_get_missing _ _ _ H). now destruct (Py.truthy (VStr location)).
    + destruct (Py.has_key item "job_city") eqn:Hkey.
      * assert (E : Py.dict_get item "job_city" (VStr location)
                    = Py.dict_get item "job_city" VNone).
        { clear -Hkey. induction item as [|[k v] item IH]; simpl in *;
            [discriminate|].
          destruct (String.eqb k "job_city"); [reflexivity | now apply IH]. }
        now rewrite E, H.
      * rewrite (dict_get_missing _ _ _ Hkey).
        now destruct (Py.truthy (VStr location)).
  - intros Hlocation.
    destruct (Py.truthy (Py.dict_get item "job_city" (VStr location))) eqn:E;
      [exact E|].
    destruct location; [now elim Hlocation | reflexivity].
Qed.

Lemma parse_resume_with_ai_world (resume_text api_key : string) (w : world rng) :
  snd (parse_resume_with_ai resume_text api_key w)
  = snd (get_gemini_response (resume_prompt (PyStr.take 800 resume_text)) api_key w).
Proof.
  unfold parse_resume_with_ai, try_except, bind, lift, ret.
  destruct (get_gemini_response _ api_key w) as [[response|e] w1]; [|reflexivity].
  cbn [snd]. destruct (falsy response); [reflexivity|].
  now destruct (json_loads (clean_reply (text_of response))).
Qed.

Lemma generate_cover_letter_world (resume_text : string) (job : dict)
    (api_key : string) (w : world rng) :
  snd (generate_cover_letter resume_text job api_key w)
  = match cover_letter_request resume_text job with
    | Val prompt => snd (get_gemini_response prompt api_key w)
    | Raise _ => w
    end.
Proof.
  unfold generate_cover_letter, bind, lift, ret.
  destruct (cover_letter_request resume_text job) as [prompt|]; [|reflexivity].
  destruct (get_gemini_response prompt api_key w) as [[response|e] w1];
    [|reflexivity].
  cbn [snd]. now destruct (falsy response).
Qed.

Lemma generate_interview_questions_world (role resume_text : string)
    (found_jobs : list dict) (api_key : string) (w : world rng) :
  snd (generate_interview_questions role resume_text found_jobs api_key w)
  = match summarize_jobs role 1 (firstn 3 found_jobs) "" with
    | Val job_summaries =>
        snd (get_gemini_response
               (interview_prompt job_summaries (PyStr.take 600 resume_text))
               api_key w)
    | Raise _ => w
    end.
Proof.
  unfold generate_interview_questions, bind, lift, ret.
  destruct (summarize_jobs role 1 (firstn 3 found_jobs) "") as [summaries|];
    [|reflexivity].
  destruct (get_gemini_response _ api_key w) as [[response|e] w1]; [|reflexivity].
  cbn [snd]. now destruct (falsy response).
Qed.

Lemma within_budget_refl (w : world rng) : within_budget w w.
Proof. split; [lia|]. exists []. split; [reflexivity | simpl; lia]. Qed.

Lemma get_gemini_response_within_budget (prompt api_key : string) (w : world rng) :
  within_budget w (snd (get_gemini_response prompt api_key w)).
Proof.
  rewrite get_gemini_response_world. unfold within_budget.
  destruct (attempt_outcome prompt api_key w 0) as [r0|e0];
    [split; [simpl; lia | exists []; split; [reflexivity | simpl; lia]]|].
  destruct (rate_limited e0);
    [|split; [simpl; lia | exists []; split; [reflexivity | simpl; lia]]].
  cbv zeta.
  destruct (attempt_outcome prompt api_key w 1) as [r1|e1];
    [split; [simpl; lia | exists [10]; split; [reflexivity | simpl; lia]]|].
  destruct (rate_limited e1).
  - split; [simpl; lia | exists [20; 10]; split; [reflexivity | simpl; lia]].
  - split; [simpl; lia | exists [10]; split; [reflexivity | simpl; lia]].
Qed.

(** X19. Each caller of the client stays within the budget of one call: the
    resume parser, the cover-letter generator and the interview-question
    generator each send at most three requests to the text-generation
    service and pause at most 30 seconds in all. *)
Theorem callers_within_budget (api_key : string) (w : world rng) :
  (forall resume_text,
      within_budget w (snd (parse_resume_with_ai resume_text api_key w)))
  /\ (forall resume_text job,
        within_budget w (snd (generate_cover_letter resume_text job api_key w)))
  /\ (forall role resume_text found_jobs,
        within_budget w
          (snd (generate_interview_questions role resume_text found_jobs api_key w))).
Proof.
  split; [|split].
  - intros resume_text. rewrite parse_resume_with_ai_world.
    apply get_gemini_response_within_budget.
  - intros resume_text job. rewrite generate_cover_letter_world.
    destruct (cover_letter_request resume_text job);
      [apply get_gemini_response_within_budget | apply within_budget_refl].
  - intros role resume_text found_jobs. rewrite generate_interview_questions_world.
    destruct (summarize_jobs role 1 (firstn 3 found_jobs) "");
      [apply get_gemini_response_within_budget | apply within_budget_refl].
Qed.

Lemma summarize_jobs_raises (role : string) (jobs : list dict) :
  forall i job_summaries e,
    summarize_jobs role i jobs job_summaries = Raise e ->
    exists job,
      In job jobs
      /\ Py.slice 300 (Py.dict_get job "job_description" (VStr "")) = Raise e.
Proof.
  induction jobs as [|job jobs IH]; intros i job_summaries e; simpl;
    [discriminate|].
  unfold exc_bind, job_summary at 1.
  destruct (Py.slice 300 (Py.dict_get job "job_description" (VStr "")))
    as [cut|e0] eqn:Hslice; cbn.
  - intros H. destruct (IH _ _ _ H) as (j & Hin & Hj). exists j. now split; [right|].
  - intros [= <-]. exists job. now split; [left|].
Qed.

(** X20. The interview-question generator raises only when the
    job_description of one of the first three jobs cannot be sliced; the
    exception is then the TypeError of that slice, and it is raised before
    any request is sent: the world is left as it was. *)
Theorem interview_questions_raise_before_request (role resume_text : string)
    (found_jobs : list dict) (api_key : string) (w : world rng) (e : exn) :
  fst (generate_interview_questions role resume_text found_jobs api_key w) = Raise e ->
  (exists job,
      In job (firstn 3 found_jobs)
      /\ Py.slice 300 (Py.dict_get job "job_description" (VStr "")) = Raise e)
  /\ exn_class e = "TypeError"
  /\ snd (generate_interview_questions role resume_text found_jobs api_key w) = w.
Proof.
  rewrite generate_interview_questions_run, generate_interview_questions_world.
  destruct (summarize_jobs role 1 (firstn 3 found_jobs) "") as [summaries|e0] eqn:H.
  - destruct (get_gemini_response_total
                (interview_prompt summaries (PyStr.take 600 resume_text)) api_key w)
      as (response & ->).
    destruct (falsy response); discriminate.
  - intros [= <-].
    destruct (summarize_jobs_raises _ _ _ _ _ H) as (job & Hin & Hslice).
    split; [now exists job|]. split; [|reflexivity].
    exact (slice_raises_type_error _ _ _ Hslice).
Qed.
End Agents.

Arguments attempt_outcome {rng}.
Arguments get_gemini_response {rng}.
Arguments parse_resume_with_ai {rng}.
Arguments search_jobs_jsearch {rng}.
Arguments simulate_job_discovery {rng}.
Arguments discover_jobs {rng}.
Arguments seeded_discovery {rng}.
Arguments generate_cover_letter {rng}.
Arguments generate_interview_questions {rng}.

(** ** The shuffle of the concrete runs is a permutation *)

Lemma update_same {A} (x : list A) (i : nat) (a : A) :
  nth_error x i = Some a -> Shuffle.update i a x = x.
Proof.
  revert i; induction x as [|h t IH]; intros [|i]; simpl; intros H;
    try discriminate.
  - now injection H as ->.
  - now rewrite IH.
Qed.

Lemma update_replaces {A} (t : list A) (k : nat) (b h : A) :
  nth_error t k = Some b -> Permutation (h :: t) (b :: Shuffle.update k h t).
Proof.
  revert k; induction t as [|c t IH]; intros [|k]; simpl; intros H;
    try discriminate.
  - injection H as ->. apply perm_swap.
  - apply Permutation_trans with (c :: h :: t); [apply perm_swap|].
    apply Permutation_trans with (c :: b :: Shuffle.update k h t);
      [apply perm_skip, IH, H | apply perm_swap].
Qed.

Lemma update_twice_perm {A} (x : list A) :
  forall i j a b,
    i <> j -> nth_error x i = Some a -> nth_error x j = Some b ->
    Permutation x (Shuffle.update j a (Shuffle.update i b x)).
Proof.
  induction x as [|h t IH]; intros [|i] [|j] a b Hne Hi Hj; simpl in *;
    try discriminate; try (now elim Hne).
  - injection Hi as ->. now apply update_replaces.
  - injection Hj as ->. now apply update_replaces.
  - apply perm_skip. apply IH; auto.
Qed.

Lemma swap_perm {A} (i j : nat) (x : list A) : Permutation x (Shuffle.swap i j x).
Proof.
  unfold Shuffle.swap.
  destruct (nth_error x i) as [a|] eqn:Hi; [|apply Permutation_refl].
  destruct (nth_error x j) as [b|] eqn:Hj; [|apply Permutation_refl].
  destruct (Nat.eq_dec i j) as [->|Hne].
  - rewrite Hi in Hj; injection Hj as ->.
    rewrite (update_same x j b Hi), (update_same x j b Hi).
    apply Permutation_refl.
  - now apply update_twice_perm.
Qed.

Lemma rounds_perm (i : nat) :
  forall x g, Permutation x (fst (Shuffle.rounds i x g)).
Proof.
  induction i as [|i IH]; intros x g; cbn [Shuffle.rounds];
    [apply Permutation_refl|].
  destruct (Shuffle.randbelow (S (S i)) g) as [j g'].
  eapply Permutation_trans; [apply (swap_perm (S i) j) | apply IH].
Qed.

Lemma shuffle_is_permutation (x : list string) (g : Z) :
  Permutation x (fst (Shuffle.shuffle x g)).
Proof. apply rounds_perm. Qed.

Lemma copies_length (n : nat) (c : string) :
  String.length (Run.copies n c) = n * String.length c.
Proof.
  induction n as [|n IH]; simpl; [reflexivity|].
  now rewrite append_length, IH.
Qed.

(** ** Concrete runs *)

Example replace_all_occurrences : PyStr.replace "www." "" "www.a.www.b" = "a.b".
Proof. reflexivity. Qed.

Example replace_does_not_overlap : PyStr.replace "aa" "b" "aaa" = "ba".
Proof. reflexivity. Qed.

Example replace_empty_pattern : PyStr.replace "" "-" "abc" = "-a-b-c-".
Proof. reflexivity. Qed.

Example split_keeps_empty_fields :
  Py.split "/" "a/b//c/" = Val ["a"; "b"; ""; "c"; ""].
Proof. reflexivity. Qed.

Example strip_both_ends : PyStr.strip "  a b  " = "a b".
Proof. reflexivity. Qed.

Example lower_company : PyStr.lower "Tech, Corp." = "tech, corp.".
Proof. reflexivity. Qed.

Example str_of_int_signs :
  map Py.str_of_int [0%Z; 7%Z; 120%Z; (-45)%Z] = ["0"; "7"; "120"; "-45"].
Proof. reflexivity. Qed.

Example slice_of_none :
  Py.slice 800 VNone
  = Raise (mkExn "TypeError" "'NoneType' object is not subscriptable").
Proof. reflexivity. Qed.

Example get_of_list :
  Py.get (VList []) "data" VNone
  = Raise (mkExn "AttributeError" "'list' object has no attribute 'get'").
Proof. reflexivity. Qed.

Example loads_object :
  Json.loads (clean_reply Run.fenced_reply)
  = Val (VDict [("role", VStr "Data Scientist"); ("skills", VList [VStr "SQL"; VStr "R"])]).
Proof. reflexivity. Qed.

Example loads_repeated_key :
  Json.loads ("{" ++ quoted "a" ++ ":1," ++ quoted "b" ++ ":2," ++ quoted "a" ++ ":3}")
  = Val (VDict [("a", VInt 3); ("b", VInt 2)]).
Proof. reflexivity. Qed.

Example loads_not_json :
  Json.loads "Error: boom"
  = Raise (mkExn "JSONDecodeError" "Expecting value: line 1 column 1 (char 0)").
Proof. reflexivity. Qed.

Example loads_trailing_comma :
  Json.loads "[1,]"
  = Raise (mkExn "JSONDecodeError" "Expecting value: line 1 column 4 (char 3)").
Proof. reflexivity. Qed.

Example loads_extra_data :
  Json.loads ("{" ++ quoted "a" ++ ":1} x")
  = Raise (mkExn "JSONDecodeError" "Extra data: line 1 column 9 (char 8)").
Proof. reflexivity. Qed.

(** The pauses of an exhausted call: 10 seconds, then 20. *)
Example backoff_doubles :
  get_gemini_response Run.out_of_quota "prompt" "key" Run.start
  = (Val None, mkWorld 2024%Z 3 0 [20; 10]).
Proof. reflexivity. Qed.

Example retry_succeeds :
  fst (get_gemini_response
         (Run.scripted [Raise Run.quota_error; Raise Run.quota_error] (Val "Dear team"))
         "prompt" "key" Run.start)
  = Val (Some "Dear team").
Proof. reflexivity. Qed.

Example parse_fenced_reply :
  fst (parse_resume_with_ai (Run.replying Run.fenced_reply) Json.loads "resume" "key" Run.start)
  = Val (VDict [("role", VStr "Data Scientist"); ("skills", VList [VStr "SQL"; VStr "R"])]).
Proof. reflexivity. Qed.

Example real_discovery :
  fst (discover_jobs Shuffle.shuffle (Run.answering Run.search_result)
                     "Data Analyst" "Pune" "key" Run.start)
  = Val ([ job_record (VStr "Acme") (VStr "Engineer") (VStr "Pune") "hr@Acme.io"
                      (VStr "Build things.") (VStr "https://acme.io/apply") "Found";
           job_record (VStr "Tech, Corp.") (VStr "Data Analyst") (VStr "Pune")
                      "hr@techcorp.com" (VStr "") (VStr "") "Found" ],
         "real").
Proof. reflexivity. Qed.

(** A website without a host leaves the domain empty, and the address is
    made from the company name. *)
Example careers_fallback :
  hr_email_for (VStr "Acme Inc") (VStr "/jobs") = Val "careers@acmeinc.com".
Proof. reflexivity. Qed.

Example nameless_listing_raises :
  hr_email_for VNone VNone
  = Raise (mkExn "AttributeError" "'NoneType' object has no attribute 'lower'").
Proof. reflexivity. Qed.

(** A listing whose description is [null] makes the whole search fail, and
    the discovery falls back to the simulation. *)
Example null_description_loses_search :
  fst (search_jobs_jsearch
         (Run.answering
            (VDict [("data", VList [VDict Run.acme_listing;
                                    VDict [("job_description", VNone)]])]))
         "Data Analyst" "Pune" "key" 3 Run.start)
  = Val [].
Proof. reflexivity. Qed.

(** Without seeding, two calls in a row select different companies. *)
Example unseeded_calls_differ :
  let run := discover_jobs Shuffle.shuffle Run.unreachable "Data Analyst" "Pune" "" in
  map (fun job => Py.dict_get job "company" VNone)
      (match fst (run Run.start) with Val (jobs, _) => jobs | Raise _ => [] end)
  = [VStr "CloudNet Systems"; VStr "InnovateX"; VStr "AlphaWave AI"]
  /\ map (fun job => Py.dict_get job "company" VNone)
         (match fst (run (snd (run Run.start))) with Val (jobs, _) => jobs | Raise _ => [] end)
     = [VStr "AlphaWave AI"; VStr "InnovateX"; VStr "CloudNet Systems"].
Proof. split; reflexivity. Qed.

(** ** The claims at concrete inputs *)

(** C1 at two services: one that refuses the three requests for quota, and
    one whose second request fails with a server error. *)
Lemma get_gemini_response_never_raises_witness :
  fst (get_gemini_response Run.out_of_quota "prompt" "key" Run.start) = Val None
  /\ fst (get_gemini_response Run.failing "prompt" "key" Run.start)
     = Val (Some "Error: 500 An internal error has occurred").
Proof.
  split.
  - apply (proj1 (get_gemini_response_never_raises Z Run.out_of_quota "prompt" "key" Run.start)).
    intros k Hk. exists Run.quota_error. split; [|reflexivity].
    destruct k as [|[|[|k]]]; [reflexivity | reflexivity | reflexivity | lia].
  - apply (proj1 (proj2 (get_gemini_response_never_raises Z Run.failing "prompt" "key" Run.start))
             1 Run.server_error).
    + lia.
    + intros i Hi. exists Run.quota_error.
      destruct i as [|i]; [split; reflexivity | lia].
    + reflexivity.
    + reflexivity.
Defined.

(** C2 with the empty key. *)
Lemma discover_jobs_without_key_witness :
  PyStr.strip "" = ""
  /\ exists jobs w',
       discover_jobs Shuffle.shuffle Run.unreachable "Data Analyst" "Pune" "" Run.start
       = (Val (jobs, "simulated"), w')
       /\ List.length jobs = 3.
Proof.
  split; [reflexivity|].
  destruct (discover_jobs_without_key Z Shuffle.shuffle shuffle_is_permutation
              Run.unreachable "Data Analyst" "Pune" "" Run.start eq_refl)
    as (jobs & w' & Hrun & Hlen & _).
  exists jobs, w'. split; assumption.
Defined.

(** C3 as the specification words it fails on the listing of Acme: the
    contact keeps the capital letter of the website. *)
Lemma hr_email_keeps_case :
  exists job,
    job_of_item "Data Analyst" "Pune" (VDict Run.acme_listing) = Val job
    /\ Py.dict_get Run.acme_listing "employer_website" (VStr "")
       = VStr "https://www.Acme.io/careers"
    /\ Py.dict_get job "hr_email" VNone = VStr "hr@Acme.io"
    /\ Py.dict_get job "hr_email" VNone <> VStr "hr@acme.io".
Proof.
  eexists. split; [reflexivity|]. split; [reflexivity|]. split; [reflexivity|].
  discriminate.
Qed.

(** C3 (amended) at the two listings. *)
Lemma hr_email_synthesis_witness :
  (exists job,
     job_of_item "Data Analyst" "Pune" (VDict Run.acme_listing) = Val job
     /\ Py.dict_get job "hr_email" VNone = VStr "hr@Acme.io")
  /\ (exists job,
        job_of_item "Data Analyst" "Pune" (VDict Run.techcorp_listing) = Val job
        /\ Py.dict_get job "hr_email" VNone = VStr "hr@techcorp.com").
Proof.
  split.
  - eexists. split; [reflexivity|].
    apply (proj1 (hr_email_synthesis "Data Analyst" "Pune" Run.acme_listing _ eq_refl)).
    reflexivity.
  - eexists. split; [reflexivity|].
    apply (proj2 (proj2 (hr_email_synthesis "Data Analyst" "Pune"
                           Run.techcorp_listing _ eq_refl)));
      reflexivity.
Defined.

(** C4 as the specification words it fails for a role of 800 characters:
    the descriptions of the simulated records are longer than 800. *)
Lemma simulated_description_exceeds_budget :
  exists jobs w',
    discover_jobs Shuffle.shuffle Run.unreachable (Run.copies 800 "x") "Pune" "" Run.start
    = (Val (jobs, "simulated"), w')
    /\ List.length jobs = 3
    /\ forall job, In job jobs ->
         exists description,
           Py.dict_get job "job_description" VNone = VStr description
           /\ 800 < String.length description
           /\ ~ capped 800 (Py.dict_get job "job_description" VNone).
Proof.
  destruct (simulated_jobs_described Z Shuffle.shuffle shuffle_is_permutation
              Run.unreachable (Run.copies 800 "x") "Pune" "" Run.start eq_refl)
    as (jobs & w' & Hrun & Hlen & Hjobs).
  exists jobs, w'. split; [exact Hrun|]. split; [exact Hlen|].
  intros job Hin. destruct (Hjobs job Hin) as (company & _ & Hdescription).
  exists (simulated_description (Run.copies 800 "x") "Pune" company).
  assert (H : 800 < String.length
                      (simulated_description (Run.copies 800 "x") "Pune" company)).
  { rewrite simulated_description_length, copies_length.
    change (String.length "x") with 1. lia. }
  split; [exact Hdescription|]. split; [exact H|].
  rewrite Hdescription. unfold capped. lia.
Qed.

(** C4 (amended) for a search whose request fails. *)
Lemma job_records_invariant_witness :
  (forall l g, Permutation l (fst (Shuffle.shuffle l g)))
  /\ exists jobs mode w',
       discover_jobs Shuffle.shuffle Run.unreachable "Data Analyst" "Pune" "key" Run.start
       = (Val (jobs, mode), w')
       /\ forall job, In job jobs -> nonempty_text job "hr_email".
Proof.
  split; [exact shuffle_is_permutation|].
  destruct (proj1 (job_records_invariant Z Shuffle.shuffle shuffle_is_permutation
                     Run.unreachable Run.no_repr "Data Analyst" "Pune" "key" Run.start))
    as (jobs & mode & w' & Hrun & Hjobs).
  exists jobs, mode, w'. split; [exact Hrun|].
  intros job Hin. exact (proj1 (Hjobs job Hin)).
Defined.

(** C5 as the specification words it fails when the service answers with a
    server error: the reply "Error: ..." is not JSON, and the record returned
    has no skill, not ["Python"]. *)
Lemma parse_failure_has_no_skills :
  let reply := "Error: 500 An internal error has occurred" in
  let result :=
    fst (parse_resume_with_ai Run.broken Json.loads "resume" "key" Run.start) in
  fst (get_gemini_response Run.broken (resume_prompt (PyStr.take 800 "resume")) "key"
                           Run.start) = Val (Some reply)
  /\ Json.loads (clean_reply reply)
     = Raise (mkExn "JSONDecodeError" "Expecting value: line 1 column 1 (char 0)")
  /\ result
     = Val (VDict [("role", VStr "Software Developer"); ("skills", VList []);
                   ("error", VStr "Expecting value: line 1 column 1 (char 0)")])
  /\ result
     <> Val (VDict [("role", VStr "Software Developer");
                    ("skills", VList [VStr "Python"]);
                    ("error", VStr "Expecting value: line 1 column 1 (char 0)")]).
Proof.
  cbv zeta. split; [reflexivity|]. split; [reflexivity|]. split; [reflexivity|].
  discriminate.
Qed.

(** C5 (amended) at a service out of quota and at a Run.broken one. *)
Lemma parse_resume_fallback_records_witness :
  fst (parse_resume_with_ai Run.out_of_quota Json.loads "resume" "key" Run.start)
  = Val (VDict [("role", VStr "Software Developer");
                ("skills", VList [VStr "Python"])])
  /\ fst (parse_resume_with_ai Run.broken Json.loads "resume" "key" Run.start)
     = Val (VDict [("role", VStr "Software Developer"); ("skills", VList []);
                   ("error", VStr "Expecting value: line 1 column 1 (char 0)")]).
Proof.
  split.
  - apply (proj1 (parse_resume_fallback_records Z Run.out_of_quota Json.loads
                    "resume" "key" Run.start)).
    reflexivity.
  - apply (proj2 (parse_resume_fallback_records Z Run.broken Json.loads
                    "resume" "key" Run.start)
             "Error: 500 An internal error has occurred"
             (mkExn "JSONDecodeError" "Expecting value: line 1 column 1 (char 0)")).
    + reflexivity.
    + discriminate.
    + reflexivity.
Defined.


(** C7 for a simulated listing and a service out of quota. *)
Lemma cover_letter_fallback_witness :
  let job := simulated_job "Data Analyst" "Pune" "InnovateX" in
  let prompt :=
    cover_letter_prompt "Data Analyst" "InnovateX"
      (PyStr.take 400 (simulated_description "Data Analyst" "Pune" "InnovateX"))
      (PyStr.take 500 "Five years of SQL and Python.") in
  cover_letter_request Run.no_repr "Five years of SQL and Python." job = Val prompt
  /\ fst (get_gemini_response Run.out_of_quota prompt "key" Run.start) = Val None
  /\ fst (generate_cover_letter Run.out_of_quota Run.no_repr
            "Five years of SQL and Python." job "key" Run.start)
     = Val (fallback_cover_letter "Data Analyst" "InnovateX")
  /\ PyStr.contains "Data Analyst" (fallback_cover_letter "Data Analyst" "InnovateX")
     = true.
Proof.
  cbv zeta. split; [reflexivity|]. split; [reflexivity|].
  destruct (cover_letter_fallback Z Run.out_of_quota Run.no_repr
              "Five years of SQL and Python."
              (simulated_job "Data Analyst" "Pune" "InnovateX") "key" Run.start
              _ "Data Analyst" "InnovateX" eq_refl eq_refl eq_refl eq_refl)
    as (Hletter & _ & Hrole & _).
  split; [exact Hletter | exact Hrole].
Defined.

(** C8 for the seed 7. *)
Lemma seeded_discovery_repeats_witness :
  PyStr.strip "" = ""
  /\ exists jobs w1 w2,
       seeded_discovery Shuffle.shuffle Shuffle.seed Run.unreachable 7%Z
                        "Data Analyst" "Pune" "" Run.start
       = (Val (jobs, "simulated"), w1)
       /\ seeded_discovery Shuffle.shuffle Shuffle.seed Run.unreachable 7%Z
                           "Data Analyst" "Pune" "" w1
          = (Val (jobs, "simulated"), w2)
       /\ map (fun job => Py.dict_get job "company" VNone) jobs
          = [VStr "InnovateX"; VStr "TechCorp Solutions"; VStr "CloudNet Systems"].
Proof.
  split; [reflexivity|].
  destruct (seeded_discovery_repeats Z Shuffle.shuffle Shuffle.seed Run.unreachable
              7%Z "Data Analyst" "Pune" "" Run.start eq_refl)
    as (jobs & w1 & w2 & Hfirst & Hsecond & Hcompanies).
  exists jobs, w1, w2. split; [exact Hfirst|]. split; [exact Hsecond|].
  exact Hcompanies.
Defined.

(** C9 for a search service that cannot be reached. *)
Lemma discover_jobs_real_has_jobs_witness :
  (forall l g, Permutation l (fst (Shuffle.shuffle l g)))
  /\ exists jobs mode w',
       discover_jobs Shuffle.shuffle Run.unreachable "Data Analyst" "Pune" "key" Run.start
       = (Val (jobs, mode), w')
       /\ mode = "simulated"
       /\ List.length jobs = 3.
Proof.
  split; [exact shuffle_is_permutation|].
  destruct (discover_jobs_real_has_jobs Z Shuffle.shuffle shuffle_is_permutation
              Run.unreachable "Data Analyst" "Pune" "key" Run.start)
    as (jobs & mode & w' & Hrun & _ & _ & Hnone & Hfail).
  exists jobs, mode, w'. split; [exact Hrun|].
  apply Hnone.
  exact (Hfail (mkExn "ConnectionError" "Failed to establish a new connection") eq_refl).
Defined.

(** C10 for a service that replies with the empty string. *)
Lemma falsy_response_gives_fallback_witness :
  falsy (Some "") = true
  /\ fst (parse_resume_with_ai (Run.replying "") Json.loads "resume" "key" Run.start)
     = Val default_resume
  /\ fst (generate_cover_letter (Run.replying "") Run.no_repr "resume"
            (simulated_job "Data Analyst" "Pune" "InnovateX") "key" Run.start)
     = Val (fallback_cover_letter "Data Analyst" "InnovateX")
  /\ fst (generate_interview_questions (Run.replying "") Run.no_repr
            "Data Analyst" "resume"
            [simulated_job "Data Analyst" "Pune" "InnovateX"] "key" Run.start)
     = Val (fallback_questions "Data Analyst").
Proof.
  split; [reflexivity|].
  destruct (falsy_response_gives_fallback Z (Run.replying "") Json.loads Run.no_repr
              (Some "") eq_refl)
    as (_ & Hparse & Hletter & Hquestions).
  split; [|split].
  - apply Hparse. reflexivity.
  - apply (Hletter "resume" (simulated_job "Data Analyst" "Pune" "InnovateX")
             "key" Run.start _ eq_refl).
    reflexivity.
  - apply (Hquestions "Data Analyst" "resume"
             [simulated_job "Data Analyst" "Pune" "InnovateX"] "key" Run.start _ eq_refl).
    reflexivity.
Defined.

(** ** The log buffer *)

Lemma keep_latest_twice (n : nat) (X R : list string) :
  skipn (List.length (skipn (List.length X - n) X ++ R) - n)
        (skipn (List.length X - n) X ++ R)
  = skipn (List.length (X ++ R) - n) (X ++ R).
Proof.
  assert (E : (skipn (List.length X - n) X ++ R
               = skipn (List.length X - n) (X ++ R))%list).
  { rewrite skipn_app.
    replace (List.length X - n - List.length X) with 0 by lia. reflexivity. }
  rewrite E, skipn_skipn, length_skipn, length_app. f_equal. lia.
Qed.

Lemma update_logs_keeps_latest (timestamp message : string) (logs : list string) :
  List.length logs <= 50 ->
  fst (App.update_logs timestamp message logs)
  = skipn (List.length (logs ++ [App.log_entry timestamp message]) - 50)
          (logs ++ [App.log_entry timestamp message]).
Proof.
  intros H. unfold App.update_logs. cbn [fst].
  set (appended := (logs ++ [App.log_entry timestamp message])%list).
  assert (Hlen : List.length appended = S (List.length logs))
    by (unfold appended; rewrite length_app; simpl; lia).
  destruct (50 <? List.length appended) eqn:Hfull.
  - apply Nat.ltb_lt in Hfull.
    replace (List.length appended - 50) with 1 by lia.
    now destruct appended.
  - apply Nat.ltb_ge in Hfull.
    now replace (List.length appended - 50) with 0 by lia.
Qed.

(** X15. The log buffer of the dashboard keeps the 50 most recent entries:
    from a buffer of at most 50 entries, any run of calls of [update_logs]
    leaves the last 50 of all the entries (all of them when there are fewer),
    in their order; the buffer never holds more than 50. *)
Theorem log_buffer_keeps_latest (calls : list (string * string))
    (logs : list string) :
  List.length logs <= 50 ->
  let entries :=
    (logs ++ map (fun call => App.log_entry (fst call) (snd call)) calls)%list in
  App.log_all calls logs = skipn (List.length entries - 50) entries
  /\ List.length (App.log_all calls logs) <= 50.
Proof.
  cbv zeta. revert logs.
  induction calls as [|[timestamp message] calls IH]; intros logs H.
  - cbn [App.log_all fold_left map]. rewrite app_nil_r.
    replace (List.length logs - 50) with 0 by lia. now split.
  - assert (Hstep := update_logs_keeps_latest timestamp message logs H).
    assert (Hkept : List.length (fst (App.update_logs timestamp message logs)) <= 50).
    { rewrite Hstep, length_skipn. lia. }
    change (App.log_all ((timestamp, message) :: calls) logs)
      with (App.log_all calls (fst (App.update_logs timestamp message logs))).
    destruct (IH _ Hkept) as (Hall & Hbound). split; [|exact Hbound].
    rewrite Hall, Hstep, keep_latest_twice.
    cbn [map fst snd]. now rewrite <- !app_assoc.
Qed.

(** ** The size of the prompts

    Two text-generation services that agree on the prompts up to a given
    length cannot be told apart by a caller that sends no longer prompt. *)

Section PromptSize.

Variable rng : Type.
Variables service service' : nat -> string -> string -> exc string.
Variable json_loads : string -> exc pyval.
Variable repr_compound : pyval -> string.

Lemma for_each_agree {A B} (xs : list A) (body body' : A -> M rng (flow B))
    (after : M rng B) :
  (forall x w, body x w = body' x w) ->
  forall w, for_each rng xs body after w = for_each rng xs body' after w.
Proof.
  intros H. induction xs as [|x xs IH]; intros w; [reflexivity|].
  cbn [for_each]. unfold bind. rewrite H.
  destruct (body' x w) as [[[b|]|e] w1]; [reflexivity | apply IH | reflexivity].
Qed.

Lemma get_gemini_response_agree (prompt api_key : string) (w : world rng) :
  (forall k, service k api_key prompt = service' k api_key prompt) ->
  get_gemini_response service prompt api_key w
  = get_gemini_response service' prompt api_key w.
Proof.
  intros H. unfold get_gemini_response. apply for_each_agree.
  intros attempt w0. unfold attempt_once, try_except, bind, request_text.
  now rewrite H.
Qed.

Lemma resume_prompt_length (truncated_resume : string) :
  String.length (resume_prompt truncated_resume)
  = 306 + String.length truncated_resume.
Proof.
  unfold resume_prompt, text. cbn [String.concat].
  rewrite !append_length.
  generalize (String.length truncated_resume) as n. intros n.
  vm_compute String.length. lia.
Qed.

Lemma cover_letter_prompt_length (role company description resume : string) :
  String.length (cover_letter_prompt role company description resume)
  = 343 + String.length role + String.length company
    + String.length description + String.length resume.
Proof.
  unfold cover_letter_prompt, text. cbn [String.concat].
  rewrite !append_length.
  generalize (String.length role) as r, (String.length company) as c,
    (String.length description) as d, (String.length resume) as n.
  intros r c d n. vm_compute String.length. lia.
Qed.

(** X16. The prompt of the resume parser is never longer than 1106
    characters, whatever the length of the resume: with two services that
    agree on all prompts of at most 1106 characters, the parser returns the
    same record and leaves the same world. *)
Theorem parse_resume_prompt_bounded (resume_text api_key : string) (w : world rng) :
  (forall k prompt,
      String.length prompt <= 1106 ->
      service k api_key prompt = service' k api_key prompt) ->
  parse_resume_with_ai service json_loads resume_text api_key w
  = parse_resume_with_ai service' json_loads resume_text api_key w.
Proof.
  intros H. unfold parse_resume_with_ai, try_except, bind.
  rewrite (get_gemini_response_agree (resume_prompt (PyStr.take 800 resume_text))
             api_key w); [reflexivity|].
  intros k. apply H. rewrite resume_prompt_length.
  pose proof (take_length 800 resume_text). lia.
Qed.

(** X17. For a job whose role, company and job_description are strings, the
    prompt of the cover letter holds the role, the company, at most 400
    characters of the description and at most 500 of the resume: it is never
    longer than 1243 characters plus the lengths of role and company. *)
Theorem cover_letter_prompt_bounded (resume_text : string) (job : dict)
    (api_key : string) (w : world rng) (role company description : string) :
  Py.dict_get job "role" (VStr "the position") = VStr role ->
  Py.dict_get job "company" (VStr "the company") = VStr company ->
  Py.dict_get job "job_description" (VStr "") = VStr description ->
  (forall k prompt,
      String.length prompt <= 1243 + String.length role + String.length company ->
      service k api_key prompt = service' k api_key prompt) ->
  generate_cover_letter service repr_compound resume_text job api_key w
  = generate_cover_letter service' repr_compound resume_text job api_key w.
Proof.
  intros Hrole Hcompany Hdescription H.
  unfold generate_cover_letter, cover_letter_request, bind, lift, exc_bind.
  rewrite Hrole, Hcompany, Hdescription. cbn [Py.slice py_str].
  rewrite (get_gemini_response_agree
             (cover_letter_prompt role company (PyStr.take 400 description)
                                  (PyStr.take 500 resume_text)) api_key w);
    [reflexivity|].
  intros k. apply H. rewrite cover_letter_prompt_length.
  pose proof (take_length 400 description).
  pose proof (take_length 500 resume_text). lia.
Qed.

End PromptSize.

(** ** The further properties at concrete inputs *)

Lemma get_gemini_response_returns_reply_witness :
  fst (get_gemini_response
         (Run.scripted [Raise Run.quota_error; Raise Run.quota_error] (Val "Dear team"))
         "prompt" "key" Run.start)
  = Val (Some "Dear team").
Proof.
  apply (get_gemini_response_returns_reply Z _ "prompt" "key" Run.start 2 "Dear team").
  - lia.
  - intros i Hi. exists Run.quota_error.
    destruct i as [|[|i]]; [split; reflexivity | split; reflexivity | lia].
  - reflexivity.
Defined.

Lemma service_error_becomes_text_witness :
  rate_limited Run.server_error = false
  /\ fst (generate_cover_letter Run.broken Run.no_repr "resume"
            (simulated_job "Data Analyst" "Pune" "InnovateX") "key" Run.start)
     = Val "Error: 500 An internal error has occurred".
Proof.
  split; [reflexivity|].
  apply (proj1 (service_error_becomes_text Z Run.broken Json.loads Run.no_repr
                  "key" Run.start Run.server_error
                  (fun prompt => eq_refl) eq_refl)
           "resume" (simulated_job "Data Analyst" "Pune" "InnovateX") _ eq_refl).
Defined.

Lemma search_jobs_jsearch_all_or_nothing_witness :
  exists jobs,
    fst (search_jobs_jsearch (Run.answering Run.search_result)
                             "Data Analyst" "Pune" "key" 3 Run.start) = Val jobs
    /\ List.length jobs = 2.
Proof.
  eexists. split.
  - apply (proj1 (search_jobs_jsearch_all_or_nothing Z
                    (Run.answering Run.search_result)
                    "Data Analyst" "Pune" "key" 3 Run.start
                    [("data", VList [VDict Run.acme_listing;
                                     VDict Run.techcorp_listing])]
                    [VDict Run.acme_listing; VDict Run.techcorp_listing]
                    eq_refl eq_refl)).
    apply Forall2_cons; [reflexivity|].
    apply Forall2_cons; [reflexivity|].
    apply Forall2_nil.
  - reflexivity.
Defined.

Lemma simulated_listings_distinct_witness :
  exists jobs w',
    discover_jobs Shuffle.shuffle Run.unreachable "Data Analyst" "Pune" "" Run.start
    = (Val (jobs, "simulated"), w')
    /\ NoDup (map (fun job => Py.dict_get job "company" VNone) jobs).
Proof.
  do 2 eexists. split; [reflexivity|].
  exact (proj1 (simulated_listings_distinct Z Shuffle.shuffle shuffle_is_permutation
                  Run.unreachable "Data Analyst" "Pune" "" Run.start _ _ eq_refl)).
Defined.

Lemma generators_accept_discovered_jobs_witness :
  exists jobs mode w',
    discover_jobs Shuffle.shuffle (Run.answering Run.search_result)
                  "Data Analyst" "Pune" "key" Run.start
    = (Val (jobs, mode), w')
    /\ exists questions,
         fst (generate_interview_questions Run.out_of_quota Run.no_repr
                "Data Analyst" "resume" jobs "key" Run.start) = Val questions.
Proof.
  do 3 eexists. split; [reflexivity|].
  exact (proj2 (generators_accept_discovered_jobs Z Shuffle.shuffle
                  Run.out_of_quota
                  (Run.answering Run.search_result) Run.no_repr
                  "Data Analyst" "Pune" "key" Run.start _ _ _ eq_refl)
           "Data Analyst" "resume" "key" Run.start).
Defined.

Lemma cover_letter_raises_before_request_witness :
  fst (generate_cover_letter (Run.replying "Dear team") Run.no_repr "resume"
         Sample.blank_job "key" Run.start)
  = Raise (mkExn "TypeError" "'NoneType' object is not subscriptable")
  /\ snd (generate_cover_letter (Run.replying "Dear team") Run.no_repr "resume"
            Sample.blank_job "key" Run.start)
     = Run.start.
Proof.
  split; [reflexivity|].
  exact (proj2 (proj2 (cover_letter_raises_before_request Z
                         (Run.replying "Dear team") Run.no_repr "resume"
                         Sample.blank_job "key" Run.start _ eq_refl))).
Defined.

Lemma company_address_has_no_space_witness :
  hr_email_for (VStr "Tech, Corp.") VNone = Val "hr@techcorp.com"
  /\ PyStr.contains " " "hr@techcorp.com" = false.
Proof.
  split; [reflexivity|].
  exact (proj1 (proj2 company_address_has_no_space (VStr "Tech, Corp.") VNone
                  "hr@techcorp.com" eq_refl eq_refl)).
Defined.


Lemma clean_reply_removes_fence_witness :
  clean_reply Run.fenced_reply
  = PyStr.strip ("{" ++ quoted "role" ++ ": " ++ quoted "Data Scientist" ++ ", "
                     ++ quoted "skills" ++ ": [" ++ quoted "SQL" ++ ", "
                     ++ quoted "R" ++ "]}").
Proof.
  exact (proj1 (proj2 clean_reply_removes_fence
                  ("{" ++ quoted "role" ++ ": " ++ quoted "Data Scientist" ++ ", "
                       ++ quoted "skills" ++ ": [" ++ quoted "SQL" ++ ", "
                       ++ quoted "R" ++ "]}")
                  eq_refl)).
Defined.

Lemma log_buffer_keeps_latest_witness :
  List.length ["[11:59:59] start"; "[11:59:59] ready"] <= 50
  /\ List.length (App.log_all Sample.ticks ["[11:59:59] start"; "[11:59:59] ready"])
     <= 50
  /\ hd "" (App.log_all Sample.ticks ["[11:59:59] start"; "[11:59:59] ready"])
     = "[12:00:10] tick".
Proof.
  assert (H : List.length ["[11:59:59] start"; "[11:59:59] ready"] <= 50)
    by (simpl; lia).
  split; [exact H|]. split; [|reflexivity].
  exact (proj2 (log_buffer_keeps_latest Sample.ticks _ H)).
Defined.

Lemma parse_resume_prompt_bounded_witness :
  parse_resume_with_ai (Run.replying "{}") Json.loads
                       (Run.copies 2000 "x") "key" Run.start
  = parse_resume_with_ai (Sample.picky 1106 "{}") Json.loads
                         (Run.copies 2000 "x") "key" Run.start.
Proof.
  apply (parse_resume_prompt_bounded Z (Run.replying "{}") (Sample.picky 1106 "{}")).
  intros k prompt H. unfold Sample.picky, Run.replying, Run.scripted.
  apply Nat.leb_le in H. rewrite H. now destruct k.
Defined.

Lemma cover_letter_prompt_bounded_witness :
  generate_cover_letter (Run.replying "Dear team") Run.no_repr
                        (Run.copies 2000 "x")
                        (simulated_job "Data Analyst" "Pune" "InnovateX") "key"
                        Run.start
  = generate_cover_letter (Sample.picky 1264 "Dear team") Run.no_repr
                          (Run.copies 2000 "x")
                          (simulated_job "Data Analyst" "Pune" "InnovateX") "key"
                          Run.start.
Proof.
  apply (cover_letter_prompt_bounded Z (Run.replying "Dear team")
           (Sample.picky 1264 "Dear team") Run.no_repr (Run.copies 2000 "x")
           (simulated_job "Data Analyst" "Pune" "InnovateX") "key" Run.start
           "Data Analyst" "InnovateX"
           (simulated_description "Data Analyst" "Pune" "InnovateX")
           eq_refl eq_refl eq_refl).
  intros k prompt H. unfold Sample.picky, Run.replying, Run.scripted.
  change (String.length prompt <= 1264) in H.
  apply Nat.leb_le in H. rewrite H. now destruct k.
Defined.

Lemma search_record_defaults_witness :
  exists job,
    job_of_item "Data Analyst" "Pune" (VDict Run.techcorp_listing) = Val job
    /\ Py.dict_get job "role" VNone = VStr "Data Analyst"
    /\ Py.dict_get job "location" VNone = VStr "Pune".
Proof.
  eexists. split; [reflexivity|].
  destruct (search_record_defaults "Data Analyst" "Pune" Run.techcorp_listing _ eq_refl)
    as (_ & Hrole & _ & Hlocation & _).
  split; [exact (Hrole eq_refl) | exact (Hlocation (or_introl eq_refl))].
Defined.

Lemma interview_questions_raise_before_request_witness :
  fst (generate_interview_questions (Run.replying "1. Why?") Run.no_repr
         "Engineer" "resume" [Sample.blank_job] "key" Run.start)
  = Raise (mkExn "TypeError" "'NoneType' object is not subscriptable")
  /\ snd (generate_interview_questions (Run.replying "1. Why?") Run.no_repr
            "Engineer" "resume" [Sample.blank_job] "key" Run.start)
     = Run.start.
Proof.
  split; [reflexivity|].
  exact (proj2 (proj2 (interview_questions_raise_before_request Z
                         (Run.replying "1. Why?") Run.no_repr "Engineer" "resume"
                         [Sample.blank_job] "key" Run.start _ eq_refl))).
Defined.

Lemma generated_text_nonempty_witness :
  fst (generate_cover_letter (Run.replying "") Run.no_repr "resume"
         (simulated_job "Data Analyst" "Pune" "InnovateX") "key" Run.start)
  = Val (fallback_cover_letter "Data Analyst" "InnovateX")
  /\ fallback_cover_letter "Data Analyst" "InnovateX" <> "".
Proof.
  split; [reflexivity|].
  exact (proj1 (generated_text_nonempty Z (Run.replying "") Run.no_repr "key" Run.start)
           "resume" (simulated_job "Data Analyst" "Pune" "InnovateX") _ eq_refl).
Defined.
